(** * lava_scheduler_daemon.dbjobsource: the database-backed job source

    A shallow embedding of [DatabaseJobSource] (dbjobsource.py): the
    transactional wrapper [deferForDB], the matching loop
    [getJobForBoard_impl] and the lifecycle handlers, over an explicit model
    of the two tables ([Device], [TestJob]) and of the thread's database
    connection.

    Python objects read from a table are modelled as a primary key together
    with the row; [save()] writes the whole row back under its key.  A
    Deferred returned by [deferToThread] is modelled by the outcome it fires
    with.  A statement sent to the database succeeds unless the constraint
    on [Device.current_job] rejects it or the row asked for is missing;
    [commit] and [rollback] succeed; a unit of work handed to [deferForDB]
    may raise anything. *)

From stdpp Require Import base option list strings gmap fin_maps pretty.
From Stdlib Require Import ZArith Lia Sorted.

Set Warnings "-register-all,-clear-no-such-hyp".
Local Open Scope Z_scope.

(** ** Data model (lava_scheduler_app.models, as used by dbjobsource.py) *)

Module Device.
Inductive Status := IDLE | RUNNING | OFFLINE | OFFLINING.

(** A row of the Device table; the primary key [hostname] is the key of
    the table. *)
Record row := {
  device_type : string;
  status : Status;
  current_job : option Z   (* unique across all devices *)
}.

Definition set_status (s : Status) (d : row) : row :=
  {| device_type := device_type d; status := s; current_job := current_job d |}.
Definition set_current_job (j : option Z) (d : row) : row :=
  {| device_type := device_type d; status := status d; current_job := j |}.
End Device.

Module TestJob.
Inductive Status :=
  SUBMITTED | RUNNING | CANCELING | CANCELED | COMPLETE | INCOMPLETE.

(** A row of the TestJob table; the primary key [id] is the key of the
    table. *)
Record row := {
  definition : string;
  status : Status;
  requested_device : option string;
  requested_device_type : option string;
  submit_time : Z;
  start_time : option Z;
  end_time : option Z;
  actual_device : option string;
  log_file : option string;
  results_link : option string
}.

Definition set_status (s : Status) (j : row) : row :=
  {| definition := definition j; status := s;
     requested_device := requested_device j;
     requested_device_type := requested_device_type j;
     submit_time := submit_time j; start_time := start_time j;
     end_time := end_time j; actual_device := actual_device j;
     log_file := log_file j; results_link := results_link j |}.
Definition set_start_time (t : Z) (j : row) : row :=
  {| definition := definition j; status := status j;
     requested_device := requested_device j;
     requested_device_type := requested_device_type j;
     submit_time := submit_time j; start_time := Some t;
     end_time := end_time j; actual_device := actual_device j;
     log_file := log_file j; results_link := results_link j |}.
Definition set_end_time (t : Z) (j : row) : row :=
  {| definition := definition j; status := status j;
     requested_device := requested_device j;
     requested_device_type := requested_device_type j;
     submit_time := submit_time j; start_time := start_time j;
     end_time := Some t; actual_device := actual_device j;
     log_file := log_file j; results_link := results_link j |}.
Definition set_actual_device (h : string) (j : row) : row :=
  {| definition := definition j; status := status j;
     requested_device := requested_device j;
     requested_device_type := requested_device_type j;
     submit_time := submit_time j; start_time := start_time j;
     end_time := end_time j; actual_device := Some h;
     log_file := log_file j; results_link := results_link j |}.
Definition set_log_file (n : string) (j : row) : row :=
  {| definition := definition j; status := status j;
     requested_device := requested_device j;
     requested_device_type := requested_device_type j;
     submit_time := submit_time j; start_time := start_time j;
     end_time := end_time j; actual_device := actual_device j;
     log_file := Some n; results_link := results_link j |}.
Definition set_results_link (v : string) (j : row) : row :=
  {| definition := definition j; status := status j;
     requested_device := requested_device j;
     requested_device_type := requested_device_type j;
     submit_time := submit_time j; start_time := start_time j;
     end_time := end_time j; actual_device := actual_device j;
     log_file := log_file j; results_link := Some v |}.
End TestJob.

#[global] Instance Device_Status_eq_dec : EqDecision Device.Status.
Proof. solve_decision. Defined.
#[global] Instance TestJob_Status_eq_dec : EqDecision TestJob.Status.
Proof. solve_decision. Defined.

(** The two tables. *)
Record Tables := {
  devices : gmap string Device.row;
  testjobs : gmap Z TestJob.row
}.

Definition with_device (h : string) (d : Device.row) (t : Tables) : Tables :=
  {| devices := <[h := d]> (devices t); testjobs := testjobs t |}.
Definition with_testjob (i : Z) (j : TestJob.row) (t : Tables) : Tables :=
  {| devices := devices t; testjobs := <[i := j]> (testjobs t) |}.

(** Values produced by [json.loads]. *)
Inductive json :=
  | JNull
  | JBool (b : bool)
  | JNum (z : Z)
  | JStr (s : string)
  | JArr (l : list json)
  | JObj (m : gmap string json).

(** ** Exceptions, log records, the thread's state *)

Inductive exn :=
  | DatabaseError (msg : string)      (* django.db.utils *)
  | IntegrityError (msg : string)     (* django.db, a DatabaseError *)
  | OperationalError (msg : string)   (* psycopg2 *)
  | InterfaceError (msg : string)     (* psycopg2 *)
  | DoesNotExist                      (* Model.objects.get, no row *)
  | AttributeError                    (* attribute access on None *)
  | ValueError                        (* json.loads; FieldFile without file *)
  | TypeError                         (* item assignment on a non-dict *)
  | IOError                           (* storage: no such file *)
  | AssertionError
  | OtherError (msg : string).

Inductive LogRecord :=
  | Warning_forcing_reconnection
  | Info_assigned_to_another_board (job_id : Z)
  | Debug_marking_complete (board_name : string)
  | Error_unexpected_device_state (s : Device.Status)
  | Error_unexpected_job_state (s : TestJob.Status)
  | Info_oob_data (board_name key value : string).

(** [connection.connection]: the psycopg2 connection cached by Django for
    the thread, with its [closed] attribute. *)
Record Connection := { closed : bool }.

(** What a unit of work can see and change.  [committed] is what the
    database holds; [pending] is the view of the transaction open on the
    thread's connection (the committed rows overlaid with its own writes);
    [scopes] counts the [enter_transaction_management] calls not yet
    left. *)
Record World := {
  committed : Tables;
  pending : Tables;
  connection : option Connection;
  scopes : nat;
  storage : gmap string string;
  log : list LogRecord;
  utcnow : Z
}.

Definition set_committed (t : Tables) (w : World) : World :=
  {| committed := t; pending := pending w; connection := connection w;
     scopes := scopes w; storage := storage w; log := log w;
     utcnow := utcnow w |}.
Definition set_pending (t : Tables) (w : World) : World :=
  {| committed := committed w; pending := t; connection := connection w;
     scopes := scopes w; storage := storage w; log := log w;
     utcnow := utcnow w |}.
Definition set_connection (c : option Connection) (w : World) : World :=
  {| committed := committed w; pending := pending w; connection := c;
     scopes := scopes w; storage := storage w; log := log w;
     utcnow := utcnow w |}.
Definition set_scopes (n : nat) (w : World) : World :=
  {| committed := committed w; pending := pending w;
     connection := connection w; scopes := n; storage := storage w;
     log := log w; utcnow := utcnow w |}.
Definition set_storage (s : gmap string string) (w : World) : World :=
  {| committed := committed w; pending := pending w;
     connection := connection w; scopes := scopes w; storage := s;
     log := log w; utcnow := utcnow w |}.
Definition logger (r : LogRecord) (w : World) : World :=
  {| committed := committed w; pending := pending w;
     connection := connection w; scopes := scopes w; storage := storage w;
     log := log w ++ [r]; utcnow := utcnow w |}.

(** ** A state-and-exception monad for Python code *)

Inductive outcome (A : Type) :=
  | Return (a : A)
  | Raise (e : exn)
  | Diverge.            (* the [while True] loop did not finish in the fuel *)
Arguments Return {A} a.
Arguments Raise {A} e.
Arguments Diverge {A}.

Definition Py (A : Type) : Type := World → outcome A * World.

#[global] Instance Py_ret : MRet Py := λ A a w, (Return a, w).
#[global] Instance Py_bind : MBind Py := λ A B k m w,
  match m w with
  | (Return a, w') => k a w'
  | (Raise e, w') => (Raise e, w')
  | (Diverge, w') => (Diverge, w')
  end.

Definition raise {A} (e : exn) : Py A := λ w, (Raise e, w).
Definition get_world : Py World := λ w, (Return w, w).
Definition modify (f : World → World) : Py unit := λ w, (Return tt, f w).

(** [try: body finally: fin].  An exception raised by [fin] replaces the
    outcome of [body]. *)
Definition try_finally {A} (body : Py A) (fin : Py unit) : Py A :=
  λ w, match body w with
       | (Diverge, w') => (Diverge, w')
       | (r, w') =>
           match fin w' with
           | (Return _, w'') => (r, w'')
           | (Raise e, w'') => (Raise e, w'')
           | (Diverge, w'') => (Diverge, w'')
           end
       end.

(** [try: body except <classes>, error: handler error else: orelse].
    [catches] says which exceptions the clause names. *)
Definition try_except_else {A B} (body : Py A) (catches : exn → bool)
    (handler : exn → Py B) (orelse : A → Py B) : Py B :=
  λ w, match body w with
       | (Return a, w') => orelse a w'
       | (Raise e, w') => if catches e then handler e w' else (Raise e, w')
       | (Diverge, w') => (Diverge, w')
       end.

Definition try_except {A} (body : Py A) (catches : exn → bool)
    (handler : exn → Py A) : Py A :=
  try_except_else body catches handler mret.

(** ** Exception classes and messages *)

(** [except IntegrityError]. *)
Definition is_IntegrityError (e : exn) : bool :=
  match e with IntegrityError _ => true | _ => false end.

(** [except (DatabaseError, OperationalError, InterfaceError)]; Django's
    IntegrityError is a subclass of its DatabaseError. *)
Definition is_store_error (e : exn) : bool :=
  match e with
  | DatabaseError _ | IntegrityError _ | OperationalError _
  | InterfaceError _ => true
  | _ => false
  end.

(** [str(error)]. *)
Definition str (e : exn) : string :=
  match e with
  | DatabaseError m | IntegrityError m | OperationalError m
  | InterfaceError m | OtherError m => m
  | DoesNotExist => "matching query does not exist."
  | AttributeError => "'NoneType' object has no attribute"
  | ValueError => "No JSON object could be decoded"
  | TypeError => "object does not support item assignment"
  | IOError => "No such file or directory"
  | AssertionError => ""
  end.

(** The test of lines 50-54 on the message of the error. *)
Definition forces_reconnection (message : string) : bool :=
  bool_decide (message = "connection already closed")
  || String.prefix "terminating connection due to administrator command" message
  || String.prefix "could not connect to server: Connection refused" message.

(** ** The object-relational layer *)

(** The constraint [unique] on [Device.current_job]: a write of row [d]
    under key [h] is rejected when another row already references the same
    job.  NULL never conflicts. *)
Definition current_job_taken (ds : gmap string Device.row) (h : string)
    (d : Device.row) : bool :=
  match Device.current_job d with
  | None => false
  | Some j =>
      existsb (λ '(h', d'), bool_decide (h' ≠ h)
                            && bool_decide (Device.current_job d' = Some j))
              (map_to_list ds)
  end.

(** [Q(requested_device=device) | Q(requested_device_type=device.device_type)]
    together with [status=TestJob.SUBMITTED]. *)
Definition Q_for_device (h : string) (d : Device.row) (j : TestJob.row) : bool :=
  bool_decide (TestJob.requested_device j = Some h)
  || bool_decide (TestJob.requested_device_type j = Some (Device.device_type d)).

Definition filter_for_device (h : string) (d : Device.row)
    (j : TestJob.row) : bool :=
  Q_for_device h d j && bool_decide (TestJob.status j = TestJob.SUBMITTED).

(** [select={'is_targeted': 'requested_device_id is not NULL'}]. *)
Definition is_targeted (j : TestJob.row) : bool :=
  bool_decide (TestJob.requested_device j ≠ None).

(** [order_by=['-is_targeted', 'submit_time']]: [comes_before a b] when [a]
    is not placed after [b]. *)
Definition comes_before (a b : TestJob.row) : bool :=
  match is_targeted a, is_targeted b with
  | true, false => true
  | false, true => false
  | _, _ => bool_decide (TestJob.submit_time a ≤ TestJob.submit_time b)
  end.

Fixpoint insert_sorted (x : Z * TestJob.row) (l : list (Z * TestJob.row))
    : list (Z * TestJob.row) :=
  match l with
  | [] => [x]
  | y :: l' =>
      if comes_before x.2 y.2 then x :: y :: l' else y :: insert_sorted x l'
  end.

Definition order_by (l : list (Z * TestJob.row)) : list (Z * TestJob.row) :=
  foldr insert_sorted [] l.

(** The queryset [jobs_for_device] of lines 85-91, evaluated. *)
Definition jobs_for_device (h : string) (d : Device.row) (t : Tables)
    : list (Z * TestJob.row) :=
  order_by (filter (λ r, filter_for_device h d r.2 = true)
                   (map_to_list (testjobs t))).

(** ** django.db.transaction and Model.save *)

Section DatabaseJobSource.

(** Django's [settings.TRANSACTIONS_MANAGED].  [deferForDB] calls
    [enter_transaction_management()] and never [managed(True)], so whether
    the thread's transactions are managed is this setting, whose value is
    not part of the module.  When it is [False] (Django's default) every
    [Model.save()] ends with [commit_unless_managed()] committing the open
    transaction; when it is [True] a write stays pending until
    [transaction.commit()]. *)
Variable TRANSACTIONS_MANAGED : bool.

(** [json.loads]: [None] stands for the ValueError raised on text that is
    not JSON. *)
Variable json_loads : string → option json.

Definition enter_transaction_management : Py unit :=
  modify (λ w, set_scopes (S (scopes w)) w).
Definition leave_transaction_management : Py unit :=
  modify (λ w, set_scopes (pred (scopes w)) w).
Definition commit : Py unit :=
  modify (λ w, set_committed (pending w) w).
Definition rollback : Py unit :=
  modify (λ w, set_pending (committed w) w).
Definition commit_unless_managed : Py unit :=
  if TRANSACTIONS_MANAGED then mret tt else commit.

(** [Device.objects.get(hostname=h)]. *)
Definition Device_get (h : string) : Py Device.row :=
  w ← get_world;
  match devices (pending w) !! h with
  | Some d => mret d
  | None => raise DoesNotExist
  end.

(** [device.save()] for the object read under key [h]. *)
Definition Device_save (h : string) (d : Device.row) : Py unit :=
  w ← get_world;
  if current_job_taken (devices (pending w)) h d
  then raise (IntegrityError "duplicate key value violates unique constraint")
  else modify (λ w, set_pending (with_device h d (pending w)) w) ;;
       commit_unless_managed.

(** [device.current_job]: [None] for a NULL reference, the referenced job
    otherwise. *)
Definition Device_current_job (d : Device.row)
    : Py (option (Z * TestJob.row)) :=
  match Device.current_job d with
  | None => mret None
  | Some i =>
      w ← get_world;
      match testjobs (pending w) !! i with
      | Some j => mret (Some (i, j))
      | None => raise DoesNotExist
      end
  end.

(** [job.save()] for the object read under key [i]. *)
Definition TestJob_save (i : Z) (j : TestJob.row) : Py unit :=
  modify (λ w, set_pending (with_testjob i j (pending w)) w) ;;
  commit_unless_managed.

(** ['job-%s.log' % job.id]. *)
Definition log_file_name (i : Z) : string :=
  "job-" +:+ pretty i +:+ ".log".

(** [job.log_file.save(name, ContentFile(''), save=False)]: an empty file
    is stored under [name], which becomes the value of the field. *)
Definition log_file_save (name : string) (j : TestJob.row)
    : Py TestJob.row :=
  modify (λ w, set_storage (<[name := ""]> (storage w)) w) ;;
  mret (TestJob.set_log_file name j).

(** [json_data['target'] = hostname]. *)
Definition set_target (hostname : string) (json_data : json) : Py json :=
  match json_data with
  | JObj m => mret (JObj (<["target" := JStr hostname]> m))
  | _ => raise TypeError
  end.

(** ** deferForDB (lines 33-72) *)

Definition deferForDB {A} (func : Py A) : Py A :=
  enter_transaction_management ;;
  try_finally
    (w ← get_world;
     (if connection w is None
      then
        (* connection.cursor().close() *)
        modify (set_connection (Some {| closed := false |})) ;;
        w ← get_world;
        (if connection w is None then raise AssertionError else mret tt) ;;
        commit
      else mret tt) ;;
     try_except func is_store_error (λ error,
       let message := str error in
       (if forces_reconnection message
        then
          modify (logger Warning_forcing_reconnection) ;;
          w ← get_world;
          match connection w with
          | Some c =>
              (if negb (closed c)
               then modify (set_connection (Some {| closed := true |}))
               else mret tt) ;;
              modify (set_connection None)
          | None => mret tt
          end
        else mret tt) ;;
       raise error))
    (rollback ;; leave_transaction_management).

(** ** getBoardList (lines 74-78) *)

Definition getBoardList_impl : Py (list string) :=
  w ← get_world;
  mret ((map_to_list (devices (pending w))).*1).

Definition getBoardList : Py (list string) := deferForDB getBoardList_impl.

(** ** getJobForBoard (lines 80-125) *)

Fixpoint getJobForBoard_impl (fuel : nat) (board_name : string)
    : Py (option json) :=
  match fuel with
  | O => λ w, (Diverge, w)
  | S fuel' =>
      device ← Device_get board_name;
      if decide (Device.status device ≠ Device.IDLE) then mret None else
      w ← get_world;
      let jobs := take 1 (jobs_for_device board_name device (pending w)) in
      match jobs with
      | (id, job) :: _ =>
          let job := TestJob.set_status TestJob.RUNNING job in
          let job := TestJob.set_start_time (utcnow w) job in
          let job := TestJob.set_actual_device board_name job in
          let device := Device.set_status Device.RUNNING device in
          let device := Device.set_current_job (Some id) device in
          try_except_else (Device_save board_name device)
            is_IntegrityError
            (λ _,
               modify (logger (Info_assigned_to_another_board id)) ;;
               rollback ;;
               getJobForBoard_impl fuel' board_name)
            (λ _,
               job ← log_file_save (log_file_name id) job;
               TestJob_save id job ;;
               json_data ← (match json_loads (TestJob.definition job) with
                            | Some v => mret v
                            | None => raise ValueError
                            end);
               json_data ← set_target board_name json_data;
               commit ;;
               mret (Some json_data))
      | [] => mret None
      end
  end.

Definition getJobForBoard (fuel : nat) (board_name : string)
    : Py (option json) :=
  deferForDB (getJobForBoard_impl fuel board_name).

(** ** getLogFileForJobOnBoard (lines 127-136) *)

Definition getLogFileForJobOnBoard_impl (board_name : string) : Py string :=
  device ← Device_get board_name;
  job ← Device_current_job device;
  match job with
  | None => raise AttributeError               (* job.log_file *)
  | Some (_, job) =>
      match TestJob.log_file job with
      | None => raise ValueError               (* log_file.file *)
      | Some name =>
          w ← get_world;
          match storage w !! name with
          | None => raise IOError
          | Some _ =>
              (* log_file.open('wb') *)
              modify (λ w, set_storage (<[name := ""]> (storage w)) w) ;;
              mret name
          end
      end
  end.

Definition getLogFileForJobOnBoard (board_name : string) : Py string :=
  deferForDB (getLogFileForJobOnBoard_impl board_name).

(** ** jobCompleted (lines 138-167) *)

Definition jobCompleted_impl (board_name : string) (exit_code : Z)
    : Py unit :=
  modify (logger (Debug_marking_complete board_name)) ;;
  device ← Device_get board_name;
  device ← (if decide (Device.status device = Device.RUNNING)
            then mret (Device.set_status Device.IDLE device)
            else if decide (Device.status device = Device.OFFLINING)
            then mret (Device.set_status Device.OFFLINE device)
            else
              modify (logger (Error_unexpected_device_state
                                (Device.status device))) ;;
              mret (Device.set_status Device.IDLE device));
  job ← Device_current_job device;
  let device := Device.set_current_job None device in
  match job with
  | None => raise AttributeError               (* job.status *)
  | Some (id, job) =>
      job ← (if decide (TestJob.status job = TestJob.RUNNING)
             then
               if decide (exit_code = 0)
               then mret (TestJob.set_status TestJob.COMPLETE job)
               else mret (TestJob.set_status TestJob.INCOMPLETE job)
             else if decide (TestJob.status job = TestJob.CANCELING)
             then mret (TestJob.set_status TestJob.CANCELED job)
             else
               modify (logger (Error_unexpected_job_state
                                 (TestJob.status job))) ;;
               mret (TestJob.set_status TestJob.COMPLETE job));
      w ← get_world;
      let job := TestJob.set_end_time (utcnow w) job in
      Device_save board_name device ;;
      TestJob_save id job
  end.

Definition jobCompleted (board_name : string) (exit_code : Z) : Py unit :=
  deferForDB (jobCompleted_impl board_name exit_code).

(** ** jobOobData (lines 169-179) *)

Definition jobOobData_impl (board_name key value : string) : Py unit :=
  modify (logger (Info_oob_data board_name key value)) ;;
  if decide (key = "dashboard-put-result")
  then
    device ← Device_get board_name;
    job ← Device_current_job device;
    match job with
    | None => raise AttributeError             (* .results_link = value *)
    | Some (id, job) =>
        TestJob_save id (TestJob.set_results_link value job) ;;
        commit
    end
  else mret tt.

Definition jobOobData (board_name key value : string) : Py unit :=
  deferForDB (jobOobData_impl board_name key value).

(** ** jobCheckForCancellation (lines 181-187) *)

Definition jobCheckForCancellation_impl (board_name : string) : Py bool :=
  device ← Device_get board_name;
  job ← Device_current_job device;
  match job with
  | None => raise AttributeError               (* job.status *)
  | Some (_, job) =>
      mret (bool_decide (TestJob.status job ≠ TestJob.RUNNING))
  end.

Definition jobCheckForCancellation (board_name : string) : Py bool :=
  deferForDB (jobCheckForCancellation_impl board_name).

End DatabaseJobSource.

(** ** Derived worlds

    Abbreviations for the worlds and rows that the functions above produce;
    each is a composition of the steps of one source function. *)

(** The world in which [deferForDB] runs its unit of work (lines 40-45). *)
Definition prepare (w : World) : World :=
  let w := set_scopes (S (scopes w)) w in
  match connection w with
  | None =>
      set_committed (pending w)
        (set_connection (Some {| closed := false |}) w)
  | Some _ => w
  end.

(** Lines 55-60: the warning, then the cached connection closed and
    forgotten. *)
Definition discard_connection (w : World) : World :=
  match connection w with
  | Some _ => set_connection None (logger Warning_forcing_reconnection w)
  | None => logger Warning_forcing_reconnection w
  end.

(** The [finally] clause (lines 70-71). *)
Definition finish (w : World) : World :=
  set_scopes (pred (scopes w)) (set_pending (committed w) w).

(** Lines 98-99 applied to the device read. *)
Definition claim_device (i : Z) (d : Device.row) : Device.row :=
  Device.set_current_job (Some i) (Device.set_status Device.RUNNING d).

(** Lines 95-97 and 114 applied to the job read. *)
Definition claim_job (h : string) (now : Z) (i : Z) (j : TestJob.row)
    : TestJob.row :=
  TestJob.set_log_file (log_file_name i)
    (TestJob.set_actual_device h
       (TestJob.set_start_time now (TestJob.set_status TestJob.RUNNING j))).

Definition claim_tables (h : string) (d : Device.row) (i : Z)
    (j : TestJob.row) (now : Z) (t : Tables) : Tables :=
  with_testjob i (claim_job h now i j) (with_device h (claim_device i d) t).

(** The world after lines 106-116 went through, before [json.loads]. *)
Definition after_claim (managed : bool) (h : string) (d : Device.row)
    (i : Z) (j : TestJob.row) (w : World) : World :=
  let t := claim_tables h d i j (utcnow w) (pending w) in
  set_pending t
    (set_committed (if managed then committed w else t)
       (set_storage (<[log_file_name i := ""]> (storage w)) w)).

(** Lines 141-148 and 150 applied to the device read. *)
Definition complete_device (d : Device.row) : Device.row :=
  Device.set_current_job None
    (Device.set_status
       (if decide (Device.status d = Device.OFFLINING)
        then Device.OFFLINE else Device.IDLE) d).

(** Lines 151-162 applied to the job read. *)
Definition complete_job (exit_code : Z) (now : Z) (j : TestJob.row)
    : TestJob.row :=
  TestJob.set_end_time now
    (TestJob.set_status
       (if decide (TestJob.status j = TestJob.RUNNING)
        then (if decide (exit_code = 0)
              then TestJob.COMPLETE else TestJob.INCOMPLETE)
        else if decide (TestJob.status j = TestJob.CANCELING)
        then TestJob.CANCELED else TestJob.COMPLETE) j).

Definition complete_tables (h : string) (d : Device.row) (i : Z)
    (j : TestJob.row) (exit_code now : Z) (t : Tables) : Tables :=
  with_testjob i (complete_job exit_code now j)
    (with_device h (complete_device d) t).

(** The world [jobCompleted_impl] leaves when the device has a job. *)
Definition after_complete (managed : bool) (h : string) (d : Device.row)
    (i : Z) (j : TestJob.row) (exit_code : Z) (w : World) : World :=
  let w1 := logger (Debug_marking_complete h) w in
  let w2 :=
    if decide (Device.status d = Device.RUNNING) then w1
    else if decide (Device.status d = Device.OFFLINING) then w1
    else logger (Error_unexpected_device_state (Device.status d)) w1 in
  let w3 :=
    if decide (TestJob.status j = TestJob.RUNNING) then w2
    else if decide (TestJob.status j = TestJob.CANCELING) then w2
    else logger (Error_unexpected_job_state (TestJob.status j)) w2 in
  let t := complete_tables h d i j exit_code (utcnow w) (pending w) in
  set_pending t (set_committed (if managed then committed w else t) w3).

(** The world [jobOobData_impl] leaves for the key it knows. *)
Definition after_oob (h : string) (i : Z) (j : TestJob.row)
    (value : string) (w : World) : World :=
  let t := with_testjob i (TestJob.set_results_link value j) (pending w) in
  set_committed t
    (set_pending t (logger (Info_oob_data h "dashboard-put-result" value) w)).

(** ** The targeting clause and the ranking, in the words of the
    specification *)

(** A job the device may claim: SUBMITTED and either requesting this
    device, or requesting no device and this device's type. *)
Definition spec_candidate (h : string) (d : Device.row) (j : TestJob.row)
    : Prop :=
  TestJob.status j = TestJob.SUBMITTED ∧
  (TestJob.requested_device j = Some h ∨
   (TestJob.requested_device j = None ∧
    TestJob.requested_device_type j = Some (Device.device_type d))).

(** A candidate is ranked first when every job that requests the device
    directly is matched by it requesting the device directly, and no
    candidate of its own tier was submitted earlier. *)
Definition spec_ranked_first (h : string) (d : Device.row) (t : Tables)
    (i : Z) (j : TestJob.row) : Prop :=
  testjobs t !! i = Some j ∧ spec_candidate h d j ∧
  ∀ i' j', testjobs t !! i' = Some j' → spec_candidate h d j' →
    (TestJob.requested_device j' = Some h →
     TestJob.requested_device j = Some h) ∧
    ((TestJob.requested_device j = Some h ↔
      TestJob.requested_device j' = Some h) →
     TestJob.submit_time j ≤ TestJob.submit_time j').

(** The clause the query of lines 85-88 evaluates. *)
Definition candidate (h : string) (d : Device.row) (t : Tables) (i : Z)
    (j : TestJob.row) : Prop :=
  testjobs t !! i = Some j ∧
  TestJob.status j = TestJob.SUBMITTED ∧
  (TestJob.requested_device j = Some h ∨
   TestJob.requested_device_type j = Some (Device.device_type d)).

(** ** Sample tables *)

Definition sample_loads (s : string) : option json :=
  if decide (s = "{}") then Some (JObj ∅)
  else if decide (s = "[]") then Some (JArr [])
  else None.

Definition sample_device (s : Device.Status) (j : option Z) : Device.row :=
  {| Device.device_type := "panda"; Device.status := s;
     Device.current_job := j |}.

Definition sample_job (s : TestJob.Status) (device type : option string)
    (submitted : Z) : TestJob.row :=
  {| TestJob.definition := "{}"; TestJob.status := s;
     TestJob.requested_device := device;
     TestJob.requested_device_type := type;
     TestJob.submit_time := submitted; TestJob.start_time := None;
     TestJob.end_time := None; TestJob.actual_device := None;
     TestJob.log_file := None; TestJob.results_link := None |}.

Definition sample_world (t : Tables) : World :=
  {| committed := t; pending := t; connection := None; scopes := 0;
     storage := ∅; log := []; utcnow := 1000 |}.

(** Two idle boards of one type and a job that names the second board and
    the type of both. *)
Definition tables_foreign_target : Tables :=
  {| devices := {[ "panda01" := sample_device Device.IDLE None;
                   "panda02" := sample_device Device.IDLE None ]};
     testjobs := {[ 1 := sample_job TestJob.SUBMITTED (Some "panda02")
                           (Some "panda") 10 ]} |}.

(** A job for the first board, and an older one naming the second board and
    the type of both. *)
Definition tables_two_targets : Tables :=
  {| devices := {[ "panda01" := sample_device Device.IDLE None;
                   "panda02" := sample_device Device.RUNNING None ]};
     testjobs := {[ 1 := sample_job TestJob.SUBMITTED (Some "panda01")
                           None 5;
                    2 := sample_job TestJob.SUBMITTED (Some "panda02")
                           (Some "panda") 1 ]} |}.

(** One idle board, a job for it and an older job for its type. *)
Definition tables_queue : Tables :=
  {| devices := {[ "panda01" := sample_device Device.IDLE None ]};
     testjobs := {[ 1 := sample_job TestJob.SUBMITTED None (Some "panda") 1;
                    2 := sample_job TestJob.SUBMITTED (Some "panda01")
                           None 7;
                    3 := sample_job TestJob.COMPLETE (Some "panda01")
                           None 0 ]} |}.

(** A board running job 1. *)
Definition tables_running : Tables :=
  {| devices := {[ "panda01" := sample_device Device.RUNNING (Some 1) ]};
     testjobs := {[ 1 := sample_job TestJob.RUNNING None (Some "panda") 1 ]} |}.

(** The second board already holds job 1, which is still SUBMITTED. *)
Definition tables_stale_attachment : Tables :=
  {| devices := {[ "panda01" := sample_device Device.IDLE None;
                   "panda02" := sample_device Device.RUNNING (Some 1) ]};
     testjobs := {[ 1 := sample_job TestJob.SUBMITTED None (Some "panda") 1 ]} |}.

(** One idle board and a job for its type whose definition is not JSON. *)
Definition tables_bad_definition : Tables :=
  {| devices := {[ "panda01" := sample_device Device.IDLE None ]};
     testjobs :=
       {[ 1 := {| TestJob.definition := "oops";
                  TestJob.status := TestJob.SUBMITTED;
                  TestJob.requested_device := None;
                  TestJob.requested_device_type := Some "panda";
                  TestJob.submit_time := 1; TestJob.start_time := None;
                  TestJob.end_time := None; TestJob.actual_device := None;
                  TestJob.log_file := None;
                  TestJob.results_link := None |} ]} |}.

(** A claim on the queue above. *)
Definition sample_claim_run : outcome (option json) * World :=
  getJobForBoard true sample_loads 1 "panda01" (sample_world tables_queue).

(** ** Concurrent invocations of getJobForBoard

    [deferToThread] runs every invocation on a thread of the pool, with a
    connection of its own; the database runs the statements of the
    connections one at a time.  A thread is modelled by the point it has
    reached in [getJobForBoard_impl] and the objects it holds; the rows it
    has written and not committed follow from the point.  A statement that
    has to wait for a row or an index entry another transaction holds
    leaves the system as it is.  The log file and the logger, which do not
    touch the tables, are left out. *)

(** The point a thread has reached in [getJobForBoard_impl], with the
    objects it holds in memory. *)
Inductive Point :=
  | AtLoopHead                                          (* line 81 *)
  | DeviceRead (d : Device.row)                         (* line 82 done *)
  | Selected (d : Device.row) (i : Z) (j : TestJob.row) (* lines 85-99 done *)
  | DeviceSaved (d : Device.row) (i : Z) (j : TestJob.row)  (* line 106 done *)
  | JobSaved (d : Device.row) (i : Z) (j : TestJob.row)     (* line 116 done *)
  | Returned (claimed : option Z)                       (* lines 84, 120, 122 *)
  | Raised (e : exn).

Record Thread := { board : string; point : Point }.

Record System := {
  db : Tables;                 (* the committed rows *)
  threads : gmap nat Thread;
  clock : Z
}.

Section Interleaving.
Variable TRANSACTIONS_MANAGED : bool.
Variable json_loads : string → option json.

(** The device row a thread has written and not yet committed, with the job
    it references. *)
Definition uncommitted_claim (t : Thread) : option (string * Z) :=
  if TRANSACTIONS_MANAGED then
    match point t with
    | DeviceSaved _ i _ | JobSaved _ i _ => Some (board t, i)
    | _ => None
    end
  else None.

(** The job row a thread has written and not yet committed. *)
Definition uncommitted_job (t : Thread) : option Z :=
  if TRANSACTIONS_MANAGED then
    match point t with
    | JobSaved _ i _ => Some i
    | _ => None
    end
  else None.

Definition others_exist (ts : gmap nat Thread) (k : nat)
    (P : Thread → bool) : bool :=
  existsb (λ '(k', t'), bool_decide (k' ≠ k) && P t') (map_to_list ts).

(** Another transaction holds an uncommitted update of device row [h]. *)
Definition device_row_locked (ts : gmap nat Thread) (k : nat) (h : string)
    : bool :=
  others_exist ts k (λ t',
    match uncommitted_claim t' with
    | Some (h', _) => bool_decide (h' = h)
    | None => false
    end).

(** Another transaction holds an uncommitted device row referencing job
    [i]. *)
Definition claim_in_progress (ts : gmap nat Thread) (k : nat) (i : Z)
    : bool :=
  others_exist ts k (λ t',
    match uncommitted_claim t' with
    | Some (_, i') => bool_decide (i' = i)
    | None => false
    end).

(** Another transaction holds an uncommitted update of job row [i]. *)
Definition job_row_locked (ts : gmap nat Thread) (k : nat) (i : Z) : bool :=
  others_exist ts k (λ t',
    match uncommitted_job t' with
    | Some i' => bool_decide (i' = i)
    | None => false
    end).

Definition goto (k : nat) (t : Thread) (p : Point) (s : System) : System :=
  {| db := db s;
     threads := <[k := {| board := board t; point := p |}]> (threads s);
     clock := clock s |}.

Definition write (k : nat) (t : Thread) (p : Point) (tables : Tables)
    (s : System) : System :=
  {| db := tables;
     threads := <[k := {| board := board t; point := p |}]> (threads s);
     clock := clock s |}.

(** One statement of thread [k]; a thread that waits for a lock, or that is
    done, leaves the system as it is. *)
Definition step (k : nat) (s : System) : System :=
  match threads s !! k with
  | None => s
  | Some t =>
      match point t with
      | AtLoopHead =>
          match devices (db s) !! board t with
          | None => goto k t (Raised DoesNotExist) s
          | Some d =>
              if decide (Device.status d ≠ Device.IDLE)
              then goto k t (Returned None) s
              else goto k t (DeviceRead d) s
          end
      | DeviceRead d =>
          match take 1 (jobs_for_device (board t) d (db s)) with
          | (i, j) :: _ => goto k t (Selected d i j) s
          | [] => goto k t (Returned None) s
          end
      | Selected d i j =>
          if device_row_locked (threads s) k (board t) then s
          else if current_job_taken (devices (db s)) (board t)
                    (claim_device i d)
          then goto k t AtLoopHead s
          else if claim_in_progress (threads s) k i then s
          else
            write k t (DeviceSaved d i j)
              (if TRANSACTIONS_MANAGED then db s
               else with_device (board t) (claim_device i d) (db s)) s
      | DeviceSaved d i j =>
          if job_row_locked (threads s) k i then s
          else
            write k t (JobSaved d i j)
              (if TRANSACTIONS_MANAGED then db s
               else with_testjob i (claim_job (board t) (clock s) i j)
                      (db s)) s
      | JobSaved d i j =>
          match json_loads (TestJob.definition j) with
          | None => goto k t (Raised ValueError) s
          | Some (JObj _) =>
              write k t (Returned (Some i))
                (if TRANSACTIONS_MANAGED
                 then claim_tables (board t) d i j (clock s) (db s)
                 else db s) s
          | Some _ => goto k t (Raised TypeError) s
          end
      | Returned _ | Raised _ => s
      end
  end.

Definition run (schedule : list nat) (s : System) : System :=
  foldl (λ s k, step k s) s schedule.

(** One invocation per entry of [boards], numbered from [k]. *)
Fixpoint spawn_from (k : nat) (boards : list string) : gmap nat Thread :=
  match boards with
  | [] => ∅
  | h :: boards' =>
      <[k := {| board := h; point := AtLoopHead |}]>
        (spawn_from (S k) boards')
  end.

Definition spawn (boards : list string) : gmap nat Thread :=
  spawn_from 0 boards.

(** The job a thread has attached to its board in the committed rows. *)
Definition committed_claim (t : Thread) : option Z :=
  match point t with
  | Returned (Some i) => Some i
  | DeviceSaved _ i _ | JobSaved _ i _ =>
      if TRANSACTIONS_MANAGED then None else Some i
  | _ => None
  end.

(** The constraint [unique] on [Device.current_job], as a property of the
    table. *)
Definition unique_current_job (ds : gmap string Device.row) : Prop :=
  ∀ h1 h2 d1 d2 i,
    ds !! h1 = Some d1 → ds !! h2 = Some d2 →
    Device.current_job d1 = Some i → Device.current_job d2 = Some i →
    h1 = h2.

Definition distinct_boards (ts : gmap nat Thread) : Prop :=
  ∀ k k' t t',
    ts !! k = Some t → ts !! k' = Some t' → board t = board t' → k = k'.

Definition claims_committed (ds : gmap string Device.row)
    (ts : gmap nat Thread) : Prop :=
  ∀ k t i, ts !! k = Some t → committed_claim t = Some i →
    ∃ d, ds !! board t = Some d ∧ Device.current_job d = Some i.

Definition claims_exclusive (ds : gmap string Device.row)
    (ts : gmap nat Thread) : Prop :=
  ∀ k t h i, ts !! k = Some t → uncommitted_claim t = Some (h, i) →
    h = board t ∧
    (∀ h' d', h' ≠ h → ds !! h' = Some d' →
       Device.current_job d' ≠ Some i) ∧
    (∀ k' t' h' i', k' ≠ k → ts !! k' = Some t' →
       uncommitted_claim t' = Some (h', i') → i' ≠ i).

Definition invariant (s : System) : Prop :=
  unique_current_job (devices (db s)) ∧
  claims_committed (devices (db s)) (threads s) ∧
  claims_exclusive (devices (db s)) (threads s) ∧
  distinct_boards (threads s).

End Interleaving.

(** Two boards of one type and a single job for the type. *)
Definition tables_one_job : Tables :=
  {| devices := {[ "panda01" := sample_device Device.IDLE None;
                   "panda02" := sample_device Device.IDLE None ]};
     testjobs := {[ 1 := sample_job TestJob.SUBMITTED None (Some "panda")
                           1 ]} |}.

Definition start (boards : list string) : System :=
  {| db := tables_one_job; threads := spawn boards; clock := 1000 |}.

(** A single invocation. *)
Definition solo (h : string) (p : Point) (tables : Tables) (now : Z) : System :=
  {| db := tables; threads := {[ 0%nat := {| board := h; point := p |} ]};
     clock := now |}.


(** A board running job 1, whose log file holds earlier output. *)
Definition tables_logging : Tables :=
  {| devices := {[ "panda01" := sample_device Device.RUNNING (Some 1) ]};
     testjobs :=
       {[ 1 := TestJob.set_log_file "job-1.log"
                 (sample_job TestJob.CANCELING None (Some "panda") 1) ]} |}.

Definition world_logging : World :=
  {| committed := tables_logging; pending := tables_logging;
     connection := Some {| closed := false |}; scopes := 0;
     storage := {[ "job-1.log" := "booting" ]}; log := []; utcnow := 1000 |}.

(** ** lava_scheduler_app/urls.py

    The regular expressions of the module use plain characters, one named
    group of the form [(?P<name>[class]+)], and the anchors [^] and [$].
    [RegexURLResolver.resolve] tries the patterns in order with
    [regex.search] and calls the first view whose pattern matches, with the
    named groups as keyword arguments. *)

Inductive regex_item :=
  | Literal (s : string)
  | Group (name : string) (class : Ascii.ascii → bool).

(** [[0-9]] and [[-_a-zA-Z0-9]]. *)
Definition digit (a : Ascii.ascii) : bool :=
  let n := Ascii.nat_of_ascii a in (48 <=? n)%nat && (n <=? 57)%nat.

Definition slug (a : Ascii.ascii) : bool :=
  let n := Ascii.nat_of_ascii a in
  (n =? 45)%nat || (n =? 95)%nat
  || ((97 <=? n)%nat && (n <=? 122)%nat)
  || ((65 <=? n)%nat && (n <=? 90)%nat)
  || digit a.

Fixpoint all_in (class : Ascii.ascii → bool) (s : string) : bool :=
  match s with
  | EmptyString => true
  | String a s' => class a && all_in class s'
  end.

(** The number of leading characters of [s] that are in the class. *)
Fixpoint span_length (class : Ascii.ascii → bool) (s : string) : nat :=
  match s with
  | String a s' => if class a then S (span_length class s') else O
  | EmptyString => O
  end.

Fixpoint string_take (k : nat) (s : string) : string :=
  match k, s with
  | S k', String a s' => String a (string_take k' s')
  | _, _ => EmptyString
  end.

Fixpoint string_drop (k : nat) (s : string) : string :=
  match k, s with
  | S k', String _ s' => string_drop k' s'
  | _, _ => s
  end.

Definition newline : string := String (Ascii.ascii_of_nat 10) "".

(** [s] without the leading [p], when it starts with [p]. *)
Fixpoint strip_prefix (p s : string) : option string :=
  match p with
  | EmptyString => Some s
  | String a p' =>
      match s with
      | String b s' => if Ascii.eqb a b then strip_prefix p' s' else None
      | EmptyString => None
      end
  end.

(** [+] is greedy and gives back one character at a time: the lengths are
    tried from [k] down to 1. *)
Fixpoint longest_first {A} (k : nat) (f : nat → option A) : option A :=
  match k with
  | O => None
  | S k' =>
      match f (S k') with
      | Some a => Some a
      | None => longest_first k' f
      end
  end.

(** The rest of a pattern against the rest of the path; at the end of the
    pattern stands [$], which matches at the end of the string and before a
    newline that ends the string. *)
Fixpoint match_items (items : list regex_item) (s : string)
    : option (list (string * string)) :=
  match items with
  | [] =>
      if decide (s = "" ∨ s = newline) then Some [] else None
  | Literal p :: items' =>
      match strip_prefix p s with
      | Some s' => match_items items' s'
      | None => None
      end
  | Group name class :: items' =>
      longest_first (span_length class s) (λ k,
        match match_items items' (string_drop k s) with
        | Some groups => Some ((name, string_take k s) :: groups)
        | None => None
        end)
  end.

(** [patterns('lava_scheduler_app.views', url(...), ...)]: each regular
    expression, without its anchors, and the name of its view. *)
Definition urlpatterns : list (list regex_item * string) :=
  [ ([], "index");
    ([Literal "alljobs"], "alljobs");
    ([Literal "device/"; Group "pk" slug], "device");
    ([Literal "device/"; Group "pk" slug; Literal "/maintenance"],
     "device_maintenance_mode");
    ([Literal "job/"; Group "pk" digit], "job");
    ([Literal "job/"; Group "pk" digit; Literal "/output"], "job_output");
    ([Literal "job/"; Group "pk" digit; Literal "/cancel"], "job_cancel") ].

Definition view (name : string) : string :=
  "lava_scheduler_app.views." +:+ name.

(** The view and keyword arguments for a path; [None] is Resolver404. *)
Fixpoint resolve_in (patterns : list (list regex_item * string))
    (path : string) : option (string * list (string * string)) :=
  match patterns with
  | [] => None
  | (items, name) :: patterns' =>
      match match_items items path with
      | Some kwargs => Some (view name, kwargs)
      | None => resolve_in patterns' path
      end
  end.

Definition resolve (path : string) : option (string * list (string * string)) :=
  resolve_in urlpatterns path.


(** * Properties *)

Ltac py_unfold :=
  unfold mbind, mret, Py_bind, Py_ret, raise, modify, get_world in *.

(** ** The ordering of the queryset *)

Lemma comes_before_refl a : comes_before a a = true.
Proof.
  unfold comes_before. destruct (is_targeted a); apply bool_decide_eq_true; lia.
Qed.

Lemma comes_before_total a b : comes_before a b = false → comes_before b a = true.
Proof.
  unfold comes_before.
  destruct (is_targeted a), (is_targeted b); try done;
    rewrite bool_decide_eq_false, bool_decide_eq_true; lia.
Qed.

Lemma comes_before_trans a b c :
  comes_before a b = true → comes_before b c = true → comes_before a c = true.
Proof.
  unfold comes_before.
  destruct (is_targeted a), (is_targeted b), (is_targeted c); try done;
    rewrite !bool_decide_eq_true; lia.
Qed.

Lemma elem_of_insert_sorted x y l : y ∈ insert_sorted x l ↔ y = x ∨ y ∈ l.
Proof.
  induction l as [|z l IH]; cbn.
  - rewrite list_elem_of_singleton. set_solver.
  - destruct (comes_before x.2 z.2); [set_solver|].
    rewrite elem_of_cons, IH. set_solver.
Qed.

Lemma elem_of_order_by y l : y ∈ order_by l ↔ y ∈ l.
Proof.
  induction l as [|z l IH]; cbn; [done|].
  fold (order_by l). rewrite elem_of_insert_sorted, IH. set_solver.
Qed.

Lemma order_by_nil_inv l : order_by l = [] → l = [].
Proof.
  destruct l as [|z l]; [done|]. cbn. fold (order_by l).
  destruct (order_by l) as [|u l']; cbn; [done|].
  destruct (comes_before _ _); done.
Qed.

Lemma insert_sorted_head x l h rest :
  (∀ h' rest', l = h' :: rest' → ∀ y, y ∈ l → comes_before h'.2 y.2 = true) →
  insert_sorted x l = h :: rest →
  ∀ y, y ∈ insert_sorted x l → comes_before h.2 y.2 = true.
Proof.
  intros Hl Heq y Hy. apply elem_of_insert_sorted in Hy.
  destruct l as [|z l']; cbn in Heq.
  - injection Heq as <- <-. destruct Hy as [->|Hy]; [apply comes_before_refl|].
    by apply elem_of_nil in Hy.
  - specialize (Hl z l' eq_refl).
    destruct (comes_before x.2 z.2) eqn:Hxz.
    + injection Heq as <- <-. destruct Hy as [->|Hy]; [apply comes_before_refl|].
      eapply comes_before_trans; [exact Hxz|]. by apply Hl.
    + injection Heq as <- <-. destruct Hy as [->|Hy]; [|by apply Hl].
      by apply comes_before_total.
Qed.

Lemma order_by_head l h rest :
  order_by l = h :: rest → ∀ y, y ∈ l → comes_before h.2 y.2 = true.
Proof.
  revert h rest. induction l as [|z l IH]; intros h rest Heq y Hy.
  - by apply elem_of_nil in Hy.
  - cbn in Heq. fold (order_by l) in Heq.
    eapply insert_sorted_head; [|exact Heq|].
    + intros h' rest' Hl' y' Hy'. eapply IH; [exact Hl'|].
      by apply elem_of_order_by.
    + apply elem_of_insert_sorted. apply elem_of_cons in Hy as [->|Hy]; [by left|].
      right. by apply elem_of_order_by.
Qed.

Lemma elem_of_jobs_for_device h d t i j :
  (i, j) ∈ jobs_for_device h d t ↔
  testjobs t !! i = Some j ∧ filter_for_device h d j = true.
Proof.
  unfold jobs_for_device. rewrite elem_of_order_by, list_elem_of_filter.
  rewrite elem_of_map_to_list. cbn. tauto.
Qed.

Lemma current_job_taken_true ds h d :
  current_job_taken ds h d = true ↔
  ∃ i h' d', Device.current_job d = Some i ∧ h' ≠ h ∧ ds !! h' = Some d'
             ∧ Device.current_job d' = Some i.
Proof.
  unfold current_job_taken. destruct (Device.current_job d) as [i|].
  - rewrite existsb_exists. split.
    + intros [[h' d'] [Hin Hb]]. apply andb_true_iff in Hb as [H1 H2].
      apply bool_decide_eq_true in H1, H2.
      apply list_elem_of_In, elem_of_map_to_list in Hin.
      by exists i, h', d'.
    + intros (i' & h' & d' & [= <-] & Hne & Hl & Hc).
      exists (h', d'). split.
      * by apply list_elem_of_In, elem_of_map_to_list.
      * apply andb_true_iff. by rewrite !bool_decide_eq_true.
  - split; [done|]. by intros (? & ? & ? & ? & _).
Qed.

Lemma candidate_iff h d t i j :
  candidate h d t i j ↔ (i, j) ∈ jobs_for_device h d t.
Proof.
  rewrite elem_of_jobs_for_device. unfold candidate, filter_for_device,
    Q_for_device.
  rewrite andb_true_iff, orb_true_iff, !bool_decide_eq_true. tauto.
Qed.

Lemma comes_before_spec a b :
  comes_before a b = true →
  (TestJob.requested_device a = None → TestJob.requested_device b = None) ∧
  ((TestJob.requested_device a = None ↔ TestJob.requested_device b = None) →
   TestJob.submit_time a ≤ TestJob.submit_time b).
Proof.
  unfold comes_before, is_targeted.
  destruct (TestJob.requested_device a), (TestJob.requested_device b);
    cbn; intros H; try done.
  - apply bool_decide_eq_true in H. done.
  - split; [done|]. intros [_ H']. by specialize (H' eq_refl).
  - apply bool_decide_eq_true in H. done.
Qed.

(** ** The wrapper and the matching loop, one step at a time *)

Lemma deferForDB_run {A} (func : Py A) (w : World) :
  deferForDB func w =
  match func (prepare w) with
  | (Return a, w') => (Return a, finish w')
  | (Raise e, w') =>
      (Raise e,
       finish (if is_store_error e && forces_reconnection (str e)
               then discard_connection w' else w'))
  | (Diverge, w') => (Diverge, w')
  end.
Proof.
  unfold deferForDB, try_finally, try_except, try_except_else, prepare,
    enter_transaction_management, leave_transaction_management, rollback,
    commit.
  py_unfold. cbn.
  destruct (connection w) as [c|] eqn:Hc; cbn;
    (destruct (func _) as [[a|e|] w'] eqn:Hf; cbn; try reflexivity;
     destruct (is_store_error e); cbn; try reflexivity;
     destruct (forces_reconnection (str e)); cbn; try reflexivity;
     unfold discard_connection; cbn;
     destruct (connection w') as [c'|]; cbn; try reflexivity;
     destruct (closed c'); reflexivity).
Qed.

Lemma pending_prepare w : pending (prepare w) = pending w.
Proof. unfold prepare. cbn. by destruct (connection w). Qed.

Lemma committed_prepare w :
  pending w = committed w → committed (prepare w) = committed w.
Proof. intros H. unfold prepare. cbn. by destruct (connection w). Qed.

Lemma utcnow_prepare w : utcnow (prepare w) = utcnow w.
Proof. unfold prepare. cbn. by destruct (connection w). Qed.

Section Matching.
Variable managed : bool.
Variable json_loads : string → option json.

Lemma getJobForBoard_impl_unfold fuel h w :
  getJobForBoard_impl managed json_loads (S fuel) h w =
  match devices (pending w) !! h with
  | None => (Raise DoesNotExist, w)
  | Some d =>
      if decide (Device.status d ≠ Device.IDLE) then (Return None, w) else
      match jobs_for_device h d (pending w) with
      | [] => (Return None, w)
      | (i, j) :: _ =>
          if current_job_taken (devices (pending w)) h (claim_device i d)
          then getJobForBoard_impl managed json_loads fuel h
                 (set_pending (committed w)
                    (logger (Info_assigned_to_another_board i) w))
          else
            let w' := after_claim managed h d i j w in
            match json_loads (TestJob.definition j) with
            | None => (Raise ValueError, w')
            | Some (JObj m) =>
                (Return (Some (JObj (<["target" := JStr h]> m))),
                 set_committed (pending w') w')
            | Some _ => (Raise TypeError, w')
            end
      end
  end.
Proof.
  cbn [getJobForBoard_impl]. unfold Device_get. py_unfold.
  destruct (devices (pending w) !! h) as [d|] eqn:Hd; [|reflexivity].
  destruct (decide (Device.status d ≠ Device.IDLE)); [reflexivity|].
  destruct (jobs_for_device h d (pending w)) as [|[i j] rest] eqn:Hj;
    [reflexivity|].
  cbn [take]. unfold try_except_else, Device_save. py_unfold.
  fold (claim_device i d).
  destruct (current_job_taken _ _ _) eqn:Ht.
  - unfold rollback. py_unfold. reflexivity.
  - unfold commit_unless_managed, commit, log_file_save, TestJob_save,
      commit_unless_managed, commit, set_target, after_claim, claim_tables.
    py_unfold. destruct managed; cbn;
      destruct (json_loads (TestJob.definition j)) as [[]|]; reflexivity.
Qed.

(** A conflict that the committed rows still show is met again by every
    later attempt: the loop does not end. *)
Lemma getJobForBoard_impl_conflict_diverges fuel h w d i j rest :
  devices (pending w) !! h = Some d →
  Device.status d = Device.IDLE →
  jobs_for_device h d (pending w) = (i, j) :: rest →
  current_job_taken (devices (pending w)) h (claim_device i d) = true →
  pending w = committed w →
  (getJobForBoard_impl managed json_loads fuel h w).1 = Diverge.
Proof.
  revert w. induction fuel as [|fuel IH]; intros w Hd Hs Hj Ht Hr;
    [reflexivity|].
  rewrite getJobForBoard_impl_unfold, Hd.
  destruct (decide _) as [Hne|_]; [done|]. rewrite Hj, Ht.
  apply IH; cbn; rewrite <- ?Hr; done.
Qed.

(** What a call that returns a job leaves behind. *)
Lemma getJobForBoard_impl_claimed fuel h w v w' :
  getJobForBoard_impl managed json_loads fuel h w = (Return (Some v), w') →
  ∃ w0 d i j rest m,
    devices (pending w0) !! h = Some d ∧
    Device.status d = Device.IDLE ∧
    jobs_for_device h d (pending w0) = (i, j) :: rest ∧
    current_job_taken (devices (pending w0)) h (claim_device i d) = false ∧
    json_loads (TestJob.definition j) = Some (JObj m) ∧
    v = JObj (<["target" := JStr h]> m) ∧
    committed w' = claim_tables h d i j (utcnow w0) (pending w0) ∧
    pending w' = committed w' ∧
    (w0 = w ∨ pending w0 = committed w) ∧ committed w0 = committed w.
Proof.
  revert w. induction fuel as [|fuel IH]; intros w H; [done|].
  rewrite getJobForBoard_impl_unfold in H.
  destruct (devices (pending w) !! h) as [d|] eqn:Hd; [|done].
  destruct (decide _) as [Hne|Hs]; [done|].
  apply dec_stable in Hs.
  destruct (jobs_for_device h d (pending w)) as [|[i j] rest] eqn:Hj;
    [done|].
  destruct (current_job_taken _ _ _) eqn:Ht.
  - apply IH in H as (w0 & d0 & i0 & j0 & rest0 & m & H1 & H2 & H3 & H4 &
                       H5 & H6 & H7 & H8 & H9 & H10).
    exists w0, d0, i0, j0, rest0, m. repeat split; try done.
    + right. destruct H9 as [->|H9]; done.
  - cbn zeta in H.
    destruct (json_loads (TestJob.definition j)) as [[]|] eqn:Hl; try done.
    injection H as <- <-.
    exists w, d, i, j, rest, m. repeat split; try done. by left.
Qed.

End Matching.

(** ** The wrapper's outcome *)

Lemma committed_finish w : committed (finish w) = committed w.
Proof. reflexivity. Qed.

Lemma deferForDB_returns {A} (func : Py A) w a w' :
  deferForDB func w = (Return a, w') →
  ∃ w1, func (prepare w) = (Return a, w1) ∧ w' = finish w1.
Proof.
  rewrite deferForDB_run. destruct (func (prepare w)) as [[a'|e|] w1]; [|done..].
  intros [= <- <-]. by exists w1.
Qed.

Lemma deferForDB_outcome {A} (func : Py A) w :
  (deferForDB func w).1 = (func (prepare w)).1.
Proof.
  rewrite deferForDB_run. by destruct (func (prepare w)) as [[a|e|] w'].
Qed.

Lemma head_candidate_not_taken h d t i j rest :
  jobs_for_device h d t = (i, j) :: rest →
  (∀ h' d' i j, h' ≠ h → devices t !! h' = Some d' →
     Device.current_job d' = Some i → testjobs t !! i = Some j →
     TestJob.status j ≠ TestJob.SUBMITTED) →
  current_job_taken (devices t) h (claim_device i d) = false.
Proof.
  intros Hj Hstale. apply not_true_is_false. intros Ht.
  apply current_job_taken_true in Ht as (i' & h' & d' & Hc & Hne & Hl & Hc').
  cbn in Hc. injection Hc as <-.
  assert (Hin : (i, j) ∈ jobs_for_device h d t) by (rewrite Hj; left).
  apply candidate_iff in Hin as (Hlj & Hs & _).
  by eapply Hstale.
Qed.

(** ** C1: when getJobForBoard returns a job *)

(** C1 (amended).  A device that is not IDLE gets none.  For an IDLE device
    the call returns a job only if some SUBMITTED job has
    [requested_device] equal to the device or [requested_device_type] equal
    to the device's type (whether or not [requested_device] is null), and
    returns none when there is no such job; when there is one, no SUBMITTED
    job is attached to another device and the candidates' definitions are
    JSON objects, the call returns a job. *)
Theorem getJobForBoard_returns_job_iff managed json_loads fuel h d w :
  pending w = committed w →
  devices (committed w) !! h = Some d →
  let r := (getJobForBoard managed json_loads (S fuel) h w).1 in
  (Device.status d ≠ Device.IDLE → r = Return None) ∧
  (Device.status d = Device.IDLE →
     ((∃ v, r = Return (Some v)) → ∃ i j, candidate h d (committed w) i j) ∧
     ((¬ ∃ i j, candidate h d (committed w) i j) → r = Return None) ∧
     ((∃ i j, candidate h d (committed w) i j) →
      (∀ h' d' i j, h' ≠ h → devices (committed w) !! h' = Some d' →
         Device.current_job d' = Some i →
         testjobs (committed w) !! i = Some j →
         TestJob.status j ≠ TestJob.SUBMITTED) →
      (∀ i j, candidate h d (committed w) i j →
         ∃ m, json_loads (TestJob.definition j) = Some (JObj m)) →
      ∃ v, r = Return (Some v))).
Proof.
  intros Hr Hd r. subst r. unfold getJobForBoard.
  rewrite deferForDB_outcome, getJobForBoard_impl_unfold.
  rewrite pending_prepare, Hr, Hd. split.
  - intros Hne. by destruct (decide _).
  - intros Hs. destruct (decide _) as [Hne|_]; [done|].
    destruct (jobs_for_device h d (committed w)) as [|[i j] rest] eqn:Hj.
    + repeat split.
      * by intros [v Hv].
      * intros (i & j & Hc) _ _. apply candidate_iff in Hc. rewrite Hj in Hc.
        by apply elem_of_nil in Hc.
    + assert (Hc : candidate h d (committed w) i j)
        by (apply candidate_iff; rewrite Hj; left).
      repeat split.
      * intros _. by exists i, j.
      * intros Hn. destruct Hn. by exists i, j.
      * intros _ Hstale Hjson.
        rewrite (head_candidate_not_taken _ _ _ _ _ _ Hj Hstale).
        destruct (Hjson i j Hc) as [m Hm]. cbn zeta. rewrite Hm. cbn. eauto.
Qed.

(** The clause of the specification asks [requested_device] to be null for
    a match on the type; the query does not: a SUBMITTED job that names
    another board and this board's type is handed to this board. *)
Lemma getJobForBoard_claims_foreign_target :
  let w := sample_world tables_foreign_target in
  let d := sample_device Device.IDLE None in
  devices (committed w) !! "panda01" = Some d ∧
  (∃ v, (getJobForBoard false sample_loads 1 "panda01" w).1
        = Return (Some v)) ∧
  ¬ ∃ i j, testjobs (committed w) !! i = Some j ∧ spec_candidate "panda01" d j.
Proof.
  cbn zeta. split; [reflexivity|]. split.
  - eexists. vm_compute. reflexivity.
  - intros (i & j & Hl & Hs & Hc). cbn in Hl.
    apply lookup_singleton_Some in Hl as [<- <-].
    cbn in Hc. destruct Hc as [Hc|[Hc _]]; discriminate.
Qed.

Lemma tables_queue_jobs i j :
  testjobs tables_queue !! i = Some j → TestJob.definition j = "{}".
Proof.
  cbn. intros H.
  repeat (apply lookup_insert_Some in H as [[<- <-]|[_ H]]; [reflexivity|]).
  by apply lookup_singleton_Some in H as [<- <-].
Qed.

Lemma getJobForBoard_returns_job_iff_witness :
  ∃ v, (getJobForBoard true sample_loads 1 "panda01"
          (sample_world tables_queue)).1 = Return (Some v).
Proof.
  refine (proj2 (proj2 (proj2
    (getJobForBoard_returns_job_iff true sample_loads 0 "panda01"
       (sample_device Device.IDLE None) (sample_world tables_queue)
       eq_refl eq_refl) eq_refl)) _ _ _).
  - exists 2, (sample_job TestJob.SUBMITTED (Some "panda01") None 7).
    repeat split. by left.
  - intros h' d' i j Hne Hl. cbn in Hl.
    apply lookup_singleton_Some in Hl as [<- _]. done.
  - intros i j (Hl & _). exists ∅.
    cbn in Hl. by rewrite (tables_queue_jobs _ _ Hl).
Defined.

(** A candidate whose definition is not JSON: the call raises, and what it
    leaves depends on whether a [save()] commits on its own. *)
Lemma getJobForBoard_bad_definition :
  let w := sample_world tables_bad_definition in
  (getJobForBoard true sample_loads 1 "panda01" w).1 = Raise ValueError ∧
  committed (getJobForBoard true sample_loads 1 "panda01" w).2
  = tables_bad_definition ∧
  (getJobForBoard false sample_loads 1 "panda01" w).1 = Raise ValueError ∧
  (Device.status <$>
   devices (committed (getJobForBoard false sample_loads 1 "panda01" w).2)
     !! "panda01") = Some Device.RUNNING.
Proof. cbn zeta. repeat split; vm_compute; reflexivity. Qed.

(** A SUBMITTED job that another board still holds: every attempt is
    rejected and the loop does not end, whatever the fuel. *)
Lemma getJobForBoard_stale_attachment fuel :
  (getJobForBoard true sample_loads fuel "panda01"
     (sample_world tables_stale_attachment)).1 = Diverge.
Proof.
  unfold getJobForBoard. rewrite deferForDB_outcome.
  eapply (getJobForBoard_impl_conflict_diverges true sample_loads fuel
            "panda01" _ (sample_device Device.IDLE None) 1); reflexivity.
Qed.

(** ** C3: which candidate is selected *)

(** C3 (amended).  For an IDLE device with a candidate, the queryset is
    headed by a candidate that no other candidate precedes: candidates
    whose [requested_device] is set, to this device or to any other, come
    before every candidate whose [requested_device] is null, whatever the
    timestamps, and within a tier no candidate has an earlier
    [submit_time]; a call that returns a job has attached that candidate
    to the device. *)
Theorem getJobForBoard_selects_first_ranked managed json_loads h d w :
  pending w = committed w →
  devices (committed w) !! h = Some d →
  Device.status d = Device.IDLE →
  (∃ i j, candidate h d (committed w) i j) →
  ∃ i j,
    head (jobs_for_device h d (committed w)) = Some (i, j) ∧
    candidate h d (committed w) i j ∧
    (∀ i' j', candidate h d (committed w) i' j' →
       (TestJob.requested_device j = None →
        TestJob.requested_device j' = None) ∧
       ((TestJob.requested_device j = None ↔
         TestJob.requested_device j' = None) →
        TestJob.submit_time j ≤ TestJob.submit_time j')) ∧
    (∀ fuel v w',
       getJobForBoard managed json_loads fuel h w = (Return (Some v), w') →
       ∃ d', devices (committed w') !! h = Some d' ∧
             Device.current_job d' = Some i).
Proof.
  intros Hr Hd Hs (i0 & j0 & Hc0).
  destruct (jobs_for_device h d (committed w)) as [|[i j] rest] eqn:Hj.
  { apply candidate_iff in Hc0. rewrite Hj in Hc0. by apply elem_of_nil in Hc0. }
  exists i, j. split; [reflexivity|]. split.
  { apply candidate_iff. rewrite Hj. left. }
  split.
  - intros i' j' Hc'. apply candidate_iff in Hc'.
    apply (comes_before_spec j j').
    apply (order_by_head _ _ _ Hj (i', j')).
    unfold jobs_for_device in Hc'. by apply (proj1 (elem_of_order_by _ _)) in Hc'.
  - intros fuel v w' Hrun. unfold getJobForBoard in Hrun.
    apply deferForDB_returns in Hrun as (w1 & Hrun & ->).
    apply getJobForBoard_impl_claimed in Hrun
      as (w0 & d0 & i1 & j1 & rest1 & m & H1 & H2 & H3 & H4 & H5 & H6 & H7
          & H8 & H9 & H10).
    assert (Hp : pending w0 = committed w).
    { destruct H9 as [->|H9].
      - by rewrite pending_prepare.
      - by rewrite H9, committed_prepare. }
    rewrite Hp in H1, H3. rewrite Hd in H1. injection H1 as <-.
    rewrite Hj in H3. injection H3 as <- <- <-.
    exists (claim_device i d). rewrite committed_finish, H7. cbn.
    by rewrite lookup_insert_eq.
Qed.

(** With a job for this board and an older job naming another board and
    this board's type, the ranking of the specification puts the first one
    ahead; the query selects the second. *)
Lemma getJobForBoard_prefers_foreign_target :
  let w := sample_world tables_two_targets in
  let d := sample_device Device.IDLE None in
  let job1 := sample_job TestJob.SUBMITTED (Some "panda01") None 5 in
  let job2 := sample_job TestJob.SUBMITTED (Some "panda02") (Some "panda") 1 in
  devices (committed w) !! "panda01" = Some d ∧
  head (jobs_for_device "panda01" d (committed w)) = Some (2, job2) ∧
  (∃ d', devices (committed
                    (getJobForBoard true sample_loads 1 "panda01" w).2)
           !! "panda01" = Some d' ∧ Device.current_job d' = Some 2) ∧
  spec_ranked_first "panda01" d (committed w) 1 job1 ∧
  ¬ spec_ranked_first "panda01" d (committed w) 2 job2.
Proof.
  cbn zeta. split; [reflexivity|]. split; [reflexivity|]. split.
  { eexists. split; [vm_compute; reflexivity|reflexivity]. }
  split.
  - split; [reflexivity|]. split; [split; [reflexivity|by left]|].
    intros i' j' Hl Hc. cbn in Hl.
    apply lookup_insert_Some in Hl as [[<- <-]|[_ Hl]].
    + split; [done|]. intros _. cbn. lia.
    + apply lookup_singleton_Some in Hl as [<- <-].
      destruct Hc as [_ [Hc|[Hc _]]]; discriminate.
  - intros (_ & (_ & [Hc|[Hc _]]) & _); discriminate.
Qed.

Lemma getJobForBoard_selects_first_ranked_witness :
  ∃ i j,
    head (jobs_for_device "panda01" (sample_device Device.IDLE None)
            tables_queue) = Some (i, j) ∧
    TestJob.requested_device j = Some "panda01".
Proof.
  destruct (getJobForBoard_selects_first_ranked true sample_loads "panda01"
              (sample_device Device.IDLE None) (sample_world tables_queue)
              eq_refl eq_refl eq_refl) as (i & j & Hh & Hc & Hfirst & _).
  - exists 1, (sample_job TestJob.SUBMITTED None (Some "panda") 1).
    repeat split. by right.
  - exists i, j. split; [exact Hh|].
    destruct (Hfirst 2 (sample_job TestJob.SUBMITTED (Some "panda01") None 7))
      as [Htier _].
    { repeat split. by left. }
    destruct Hc as (_ & _ & [Hc|Hc]); [exact Hc|].
    destruct (TestJob.requested_device j) as [x|] eqn:Hx.
    + exfalso. revert Hh Hx. vm_compute. intros [= <- <-]. discriminate.
    + specialize (Htier eq_refl). discriminate.
Defined.

(** ** C4: what a successful claim commits *)

(** C4.  Whenever getJobForBoard returns a job, the committed tables hold the
    device RUNNING with [current_job] the claimed job and that job RUNNING
    with [actual_device] the device; they are the tables the attempt read
    with exactly these two rows rewritten, and nothing is left pending.  The
    value returned is the stored definition, decoded, with [target] set to
    the hostname. *)
Theorem getJobForBoard_claim_committed managed json_loads fuel h w v w' :
  getJobForBoard managed json_loads fuel h w = (Return (Some v), w') →
  ∃ i d' j' m,
    devices (committed w') !! h = Some d' ∧
    Device.status d' = Device.RUNNING ∧
    Device.current_job d' = Some i ∧
    testjobs (committed w') !! i = Some j' ∧
    TestJob.status j' = TestJob.RUNNING ∧
    TestJob.actual_device j' = Some h ∧
    json_loads (TestJob.definition j') = Some (JObj m) ∧
    v = JObj (<["target" := JStr h]> m) ∧
    pending w' = committed w' ∧
    ∃ t d j now,
      devices t !! h = Some d ∧ Device.status d = Device.IDLE ∧
      testjobs t !! i = Some j ∧ TestJob.status j = TestJob.SUBMITTED ∧
      TestJob.definition j' = TestJob.definition j ∧
      committed w' = claim_tables h d i j now t.
Proof.
  intros Hrun. unfold getJobForBoard in Hrun.
  apply deferForDB_returns in Hrun as (w1 & Hrun & ->).
  apply getJobForBoard_impl_claimed in Hrun
    as (w0 & d & i & j & rest & m & H1 & H2 & H3 & H4 & H5 & H6 & H7
        & H8 & _ & _).
  assert (Hc : candidate h d (pending w0) i j)
    by (apply candidate_iff; rewrite H3; left).
  destruct Hc as (Hl & Hs & _).
  exists i, (claim_device i d), (claim_job h (utcnow w0) i j), m.
  rewrite committed_finish, H7. cbn.
  rewrite !lookup_insert_eq. repeat split; try done.
  exists (pending w0), d, j, (utcnow w0). done.
Qed.

Lemma getJobForBoard_claim_committed_witness :
  ∃ i d' j' m,
    devices (committed sample_claim_run.2) !! "panda01" = Some d' ∧
    Device.status d' = Device.RUNNING ∧
    Device.current_job d' = Some i ∧
    testjobs (committed sample_claim_run.2) !! i = Some j' ∧
    TestJob.status j' = TestJob.RUNNING ∧
    TestJob.actual_device j' = Some "panda01" ∧
    sample_loads (TestJob.definition j') = Some (JObj m) ∧
    JObj (<["target" := JStr "panda01"]> ∅)
    = JObj (<["target" := JStr "panda01"]> m) ∧
    pending sample_claim_run.2 = committed sample_claim_run.2 ∧
    ∃ t d j now,
      devices t !! "panda01" = Some d ∧ Device.status d = Device.IDLE ∧
      testjobs t !! i = Some j ∧ TestJob.status j = TestJob.SUBMITTED ∧
      TestJob.definition j' = TestJob.definition j ∧
      committed sample_claim_run.2 = claim_tables "panda01" d i j now t.
Proof.
  apply (getJobForBoard_claim_committed true sample_loads 1 "panda01"
           (sample_world tables_queue)).
  vm_compute. reflexivity.
Defined.

(** ** C5: a rejected device write *)

Section Conflict.
Variable managed : bool.
Variable json_loads : string → option json.

Lemma getJobForBoard_impl_no_IntegrityError fuel h w msg :
  (getJobForBoard_impl managed json_loads fuel h w).1
  ≠ Raise (IntegrityError msg).
Proof.
  revert w. induction fuel as [|fuel IH]; intros w; [done|].
  rewrite getJobForBoard_impl_unfold.
  destruct (devices (pending w) !! h) as [d|]; [|done].
  destruct (decide _); [done|].
  destruct (jobs_for_device h d (pending w)) as [|[i j] rest]; [done|].
  destruct (current_job_taken _ _ _); [apply IH|].
  cbn zeta. by destruct (json_loads (TestJob.definition j)) as [[]|].
Qed.

End Conflict.


(** ** C6 and C2: jobCompleted *)

Lemma current_job_taken_None ds h d :
  Device.current_job d = None → current_job_taken ds h d = false.
Proof. intros H. unfold current_job_taken. by rewrite H. Qed.

Lemma jobCompleted_impl_run managed h e w d i j :
  devices (pending w) !! h = Some d →
  Device.current_job d = Some i →
  testjobs (pending w) !! i = Some j →
  jobCompleted_impl managed h e w
  = (Return tt, after_complete managed h d i j e w).
Proof.
  intros Hd Hc Hj.
  unfold jobCompleted_impl, Device_get, Device_current_job, Device_save,
    TestJob_save, commit_unless_managed, commit, after_complete,
    complete_tables, complete_device, complete_job.
  py_unfold. cbn. rewrite Hd.
  destruct (decide (Device.status d = Device.RUNNING)) as [Hr|Hr]; cbn.
  - rewrite Hc. cbn. rewrite Hj.
    destruct (decide (Device.status d = Device.OFFLINING)) as [Ho|Ho];
      [congruence|].
    destruct (decide (TestJob.status j = TestJob.RUNNING)); cbn.
    + destruct (decide (e = 0)); cbn; by destruct managed.
    + destruct (decide (TestJob.status j = TestJob.CANCELING)); cbn;
        by destruct managed.
  - destruct (decide (Device.status d = Device.OFFLINING)) as [Ho|Ho]; cbn;
      rewrite Hc; cbn; rewrite Hj;
      (destruct (decide (TestJob.status j = TestJob.RUNNING)); cbn;
       [destruct (decide (e = 0)); cbn; by destruct managed
       |destruct (decide (TestJob.status j = TestJob.CANCELING)); cbn;
        by destruct managed]).
Qed.



(** C2.  What a successful jobCompleted leaves in the database.  The
    function saves both rows and never calls [transaction.commit()], and
    [deferForDB] rolls back on the way out: the two updates are committed
    exactly when every [save()] commits on its own
    ([TRANSACTIONS_MANAGED = False]); under managed transactions the call
    returns normally and the committed tables are the ones it started
    from. *)
Theorem jobCompleted_persistence managed h e w d i j :
  pending w = committed w →
  devices (committed w) !! h = Some d →
  Device.current_job d = Some i →
  testjobs (committed w) !! i = Some j →
  ∃ w',
    jobCompleted managed h e w = (Return tt, w') ∧
    pending w' = committed w' ∧
    committed w' =
      (if managed then committed w
       else complete_tables h d i j e (utcnow w) (committed w)).
Proof.
  intros Hr Hd Hc Hj. rewrite <- Hr in Hd, Hj.
  assert (Hrun := jobCompleted_impl_run managed h e (prepare w) d i j).
  rewrite pending_prepare in Hrun. specialize (Hrun Hd Hc Hj).
  eexists. split.
  { unfold jobCompleted. rewrite deferForDB_run, Hrun. reflexivity. }
  split; [reflexivity|].
  cbn. rewrite utcnow_prepare, pending_prepare, committed_prepare, Hr by done.
  reflexivity.
Qed.

Lemma jobCompleted_persistence_witness :
  ∃ w',
    jobCompleted true "panda01" 0 (sample_world tables_running)
    = (Return tt, w') ∧
    pending w' = committed w' ∧
    committed w' = tables_running.
Proof.
  exact (jobCompleted_persistence true "panda01" 0
           (sample_world tables_running)
           (sample_device Device.RUNNING (Some 1)) 1
           (sample_job TestJob.RUNNING None (Some "panda") 1)
           eq_refl eq_refl eq_refl eq_refl).
Defined.

(** With [TRANSACTIONS_MANAGED = False] line 163 commits the device row on
    its own: the committed tables then show the board idle and detached
    while job 1 is still RUNNING. *)
Lemma jobCompleted_commits_device_first :
  let w := (Device_save false "panda01"
              (complete_device (sample_device Device.RUNNING (Some 1)))
              (prepare (sample_world tables_running))).2 in
  devices (committed w) !! "panda01" = Some (sample_device Device.IDLE None) ∧
  testjobs (committed w) !! 1
  = Some (sample_job TestJob.RUNNING None (Some "panda") 1).
Proof. cbn zeta. split; vm_compute; reflexivity. Qed.

(** ** C7: store errors in the wrapper *)
Lemma connection_prepare_None w :
  connection w = None → connection (prepare w) = Some {| closed := false |}.
Proof. intros H. unfold prepare. cbn. by rewrite H. Qed.

Lemma connection_discard w : connection (discard_connection w) = None.
Proof. unfold discard_connection. by destruct (connection w) eqn:H. Qed.

(** The three conditions, spelled out. *)
Lemma forces_reconnection_iff message :
  forces_reconnection message = true ↔
  message = "connection already closed" ∨
  String.prefix "terminating connection due to administrator command"
    message = true ∨
  String.prefix "could not connect to server: Connection refused"
    message = true.
Proof.
  unfold forces_reconnection.
  rewrite !orb_true_iff, bool_decide_eq_true. tauto.
Qed.



(** ** C8: out-of-band data *)
Lemma jobOobData_impl_run managed h value w d i j :
  devices (pending w) !! h = Some d →
  Device.current_job d = Some i →
  testjobs (pending w) !! i = Some j →
  jobOobData_impl managed h "dashboard-put-result" value w
  = (Return tt, after_oob h i j value w).
Proof.
  intros Hd Hc Hj.
  unfold jobOobData_impl, Device_get, Device_current_job, TestJob_save,
    commit_unless_managed, commit, after_oob.
  py_unfold. destruct (decide _) as [_|Hne]; [|done].
  cbn. rewrite Hd. cbn. rewrite Hc. cbn. rewrite Hj.
  destruct managed; cbn; reflexivity.
Qed.

(** C8.  With the key ["dashboard-put-result"], on a device with an
    attached job, jobOobData returns normally and the committed tables are
    the former ones with [results_link] of that job set to the value,
    committed by the handler itself; with any other key it returns normally
    and the tables are unchanged. *)
Theorem jobOobData_sets_results_link managed h key value w :
  pending w = committed w →
  (key = "dashboard-put-result" →
   ∀ d i j,
     devices (committed w) !! h = Some d →
     Device.current_job d = Some i →
     testjobs (committed w) !! i = Some j →
     ∃ w1,
       jobOobData_impl managed h key value (prepare w) = (Return tt, w1) ∧
       jobOobData managed h key value w = (Return tt, finish w1) ∧
       committed w1
       = with_testjob i (TestJob.set_results_link value j) (committed w) ∧
       committed (finish w1) = committed w1 ∧
       pending (finish w1) = committed w1) ∧
  (key ≠ "dashboard-put-result" →
   ∃ w',
     jobOobData managed h key value w = (Return tt, w') ∧
     committed w' = committed w ∧ pending w' = committed w).
Proof.
  intros Hr. split.
  - intros -> d i j Hd Hc Hj. rewrite <- Hr in Hd, Hj.
    assert (Himpl := jobOobData_impl_run managed h value (prepare w) d i j).
    rewrite pending_prepare in Himpl. specialize (Himpl Hd Hc Hj).
    exists (after_oob h i j value (prepare w)).
    split; [exact Himpl|]. split.
    { unfold jobOobData. by rewrite deferForDB_run, Himpl. }
    cbn. by rewrite pending_prepare, Hr.
  - intros Hne. eexists. split.
    { unfold jobOobData, jobOobData_impl. rewrite deferForDB_run. py_unfold.
      destruct (decide _) as [|_]; [done|]. reflexivity. }
    cbn. by rewrite committed_prepare.
Qed.

Lemma jobOobData_sets_results_link_witness :
  (∃ w',
     jobOobData true "panda01" "dashboard-put-result" "http://x"
       (sample_world tables_running) = (Return tt, w') ∧
     ∃ j', testjobs (committed w') !! 1 = Some j' ∧
           TestJob.results_link j' = Some "http://x") ∧
  (∃ w',
     jobOobData true "panda01" "unknown-key" "v"
       (sample_world tables_running) = (Return tt, w') ∧
     committed w' = tables_running ∧ pending w' = tables_running).
Proof.
  split.
  - destruct (proj1 (jobOobData_sets_results_link true "panda01"
                       "dashboard-put-result" "http://x"
                       (sample_world tables_running) eq_refl) eq_refl
                (sample_device Device.RUNNING (Some 1)) 1
                (sample_job TestJob.RUNNING None (Some "panda") 1)
                eq_refl eq_refl eq_refl)
      as (w1 & _ & H2 & H3 & _).
    exists (finish w1). split; [exact H2|].
    eexists. rewrite committed_finish, H3. cbn.
    rewrite lookup_insert_eq. done.
  - apply (proj2 (jobOobData_sets_results_link true "panda01" "unknown-key"
                    "v" (sample_world tables_running) eq_refl)).
    discriminate.
Defined.

(** ** C10: a device without a job *)
(** C10.  For a device whose [current_job] is null, getLogFileForJobOnBoard,
    jobCompleted and jobCheckForCancellation each end in the AttributeError
    of an attribute access on [None]. *)
Theorem no_current_job_raises managed h e w d :
  devices (pending w) !! h = Some d →
  Device.current_job d = None →
  (getLogFileForJobOnBoard h w).1 = Raise AttributeError ∧
  (jobCompleted managed h e w).1 = Raise AttributeError ∧
  (jobCheckForCancellation h w).1 = Raise AttributeError.
Proof.
  intros Hd Hc. rewrite <- pending_prepare in Hd.
  unfold getLogFileForJobOnBoard, jobCompleted, jobCheckForCancellation.
  rewrite !deferForDB_outcome.
  unfold getLogFileForJobOnBoard_impl, jobCompleted_impl,
    jobCheckForCancellation_impl, Device_get, Device_current_job.
  py_unfold. cbn. rewrite Hd. cbn. rewrite Hc.
  repeat split.
  destruct (decide (Device.status d = Device.RUNNING)); cbn.
  - by rewrite Hc.
  - destruct (decide (Device.status d = Device.OFFLINING)); cbn; by rewrite Hc.
Qed.

Lemma no_current_job_raises_witness :
  let w := sample_world tables_queue in
  (getLogFileForJobOnBoard "panda01" w).1 = Raise AttributeError ∧
  (jobCompleted false "panda01" 0 w).1 = Raise AttributeError ∧
  (jobCheckForCancellation "panda01" w).1 = Raise AttributeError.
Proof.
  exact (no_current_job_raises false "panda01" 0 (sample_world tables_queue)
           (sample_device Device.IDLE None) eq_refl eq_refl).
Defined.

(** ** C9: concurrent invocations *)

Section InterleavingFacts.
Variable managed : bool.
Variable json_loads : string → option json.

Local Abbreviation uc := (uncommitted_claim managed).
Local Abbreviation cc := (committed_claim managed).

Lemma others_exist_false ts k P k' t' :
  others_exist ts k P = false → k' ≠ k → ts !! k' = Some t' → P t' = false.
Proof.
  intros H Hne Hl. apply not_true_is_false. intros HP.
  enough (others_exist ts k P = true) by congruence.
  unfold others_exist. apply existsb_exists. exists (k', t'). split.
  - by apply list_elem_of_In, elem_of_map_to_list.
  - apply andb_true_iff. by rewrite bool_decide_eq_true.
Qed.

Lemma current_job_taken_false ds h d i h' d' :
  current_job_taken ds h d = false → Device.current_job d = Some i →
  h' ≠ h → ds !! h' = Some d' → Device.current_job d' ≠ Some i.
Proof.
  intros Ht Hc Hne Hl Hc'.
  enough (current_job_taken ds h d = true) by congruence.
  apply current_job_taken_true. by exists i, h', d'.
Qed.

Lemma unique_current_job_insert ds h d i :
  unique_current_job ds →
  Device.current_job d = Some i →
  (∀ h' d', h' ≠ h → ds !! h' = Some d' → Device.current_job d' ≠ Some i) →
  unique_current_job (<[h := d]> ds).
Proof.
  intros Hu Hc Hfree h1 h2 d1 d2 i' H1 H2 Hc1 Hc2.
  destruct (decide (h1 = h)) as [->|Hn1], (decide (h2 = h)) as [->|Hn2];
    try done.
  - rewrite lookup_insert_eq in H1. rewrite lookup_insert_ne in H2 by done.
    injection H1 as <-. assert (i' = i) as -> by congruence.
    by destruct (Hfree h2 d2).
  - rewrite lookup_insert_eq in H2. rewrite lookup_insert_ne in H1 by done.
    injection H2 as <-. assert (i' = i) as -> by congruence.
    by destruct (Hfree h1 d1).
  - rewrite lookup_insert_ne in H1, H2 by done. by eapply Hu.
Qed.

Lemma distinct_boards_insert ts k t t' :
  distinct_boards ts → ts !! k = Some t → board t' = board t →
  distinct_boards (<[k := t']> ts).
Proof.
  intros Hd Hk Hb k1 k2 t1 t2 H1 H2 Heq.
  destruct (decide (k1 = k)) as [->|Hn1], (decide (k2 = k)) as [->|Hn2];
    try done.
  - rewrite lookup_insert_eq in H1. rewrite lookup_insert_ne in H2 by done.
    injection H1 as <-. symmetry. eapply Hd; [exact H2|exact Hk|congruence].
  - rewrite lookup_insert_eq in H2. rewrite lookup_insert_ne in H1 by done.
    injection H2 as <-. eapply Hd; [exact H1|exact Hk|congruence].
  - rewrite lookup_insert_ne in H1, H2 by done. by eapply Hd.
Qed.

(** A step that leaves the device table alone and gives the thread no new
    claim. *)
Lemma invariant_move s k t t' tables :
  invariant managed s → threads s !! k = Some t →
  board t' = board t → devices tables = devices (db s) →
  (cc t' = None ∨ cc t' = cc t) → (uc t' = None ∨ uc t' = uc t) →
  invariant managed
    {| db := tables; threads := <[k := t']> (threads s); clock := clock s |}.
Proof.
  intros (HA & HB & HC & HD) Hk Hb Hds Hcc Huc. unfold invariant. cbn.
  rewrite Hds. split; [done|]. split; [|split].
  - intros k0 t0 i H0 Hc0. destruct (decide (k0 = k)) as [->|Hn].
    + rewrite lookup_insert_eq in H0. injection H0 as <-.
      destruct Hcc as [Hcc|Hcc]; [congruence|].
      rewrite Hb. apply (HB k t i Hk). congruence.
    + rewrite lookup_insert_ne in H0 by done. by eapply HB.
  - intros k0 t0 h i H0 Hu0.
    assert (∃ t0', threads s !! k0 = Some t0' ∧ uc t0' = Some (h, i) ∧
                   board t0' = board t0) as (t0' & H0' & Hu0' & Hb0).
    { destruct (decide (k0 = k)) as [->|Hn].
      - rewrite lookup_insert_eq in H0. injection H0 as <-. exists t.
        destruct Huc as [Huc|Huc]; [congruence|]. split; [done|].
        split; congruence.
      - rewrite lookup_insert_ne in H0 by done. by exists t0. }
    destruct (HC k0 t0' h i H0' Hu0') as (Hh & Hfree & Hex).
    split; [congruence|]. split; [exact Hfree|].
    intros k1 t1 h1 i1 Hne H1 Hu1.
    destruct (decide (k1 = k)) as [->|Hn1].
    + rewrite lookup_insert_eq in H1. injection H1 as <-.
      destruct Huc as [Huc|Huc]; [congruence|].
      eapply (Hex k t); [done|done|]. by rewrite <- Huc.
    + rewrite lookup_insert_ne in H1 by done. by eapply Hex.
  - by eapply distinct_boards_insert.
Qed.

(** A step that attaches job [i] to the thread's board in the committed
    rows. *)
Lemma invariant_attach s k t t' tables d i :
  invariant managed s → threads s !! k = Some t →
  board t' = board t →
  devices tables = <[board t := d]> (devices (db s)) →
  Device.current_job d = Some i →
  cc t' = Some i → uc t' = None →
  (∀ h' d', h' ≠ board t → devices (db s) !! h' = Some d' →
     Device.current_job d' ≠ Some i) →
  (∀ k' t' h' i', k' ≠ k → threads s !! k' = Some t' →
     uc t' = Some (h', i') → i' ≠ i) →
  invariant managed
    {| db := tables; threads := <[k := t']> (threads s); clock := clock s |}.
Proof.
  intros (HA & HB & HC & HD) Hk Hb Hds Hc Hcc Huc Hfree Hex.
  unfold invariant. cbn. rewrite Hds. split; [|split; [|split]].
  - by eapply unique_current_job_insert.
  - intros k0 t0 i0 H0 Hc0. destruct (decide (k0 = k)) as [->|Hn].
    + rewrite lookup_insert_eq in H0. injection H0 as <-.
      rewrite Hb, lookup_insert_eq. exists d. split; congruence.
    + rewrite lookup_insert_ne in H0 by done.
      rewrite lookup_insert_ne; [by eapply HB|].
      intros Heq. apply Hn. eapply HD; [exact H0|exact Hk|done].
  - intros k0 t0 h i0 H0 Hu0. destruct (decide (k0 = k)) as [->|Hn].
    { rewrite lookup_insert_eq in H0. injection H0 as <-. congruence. }
    rewrite lookup_insert_ne in H0 by done.
    destruct (HC k0 t0 h i0 H0 Hu0) as (Hh & Hfree0 & Hex0).
    split; [done|]. split.
    + intros h' d' Hne' Hl'. destruct (decide (h' = board t)) as [->|Hnb].
      * rewrite lookup_insert_eq in Hl'. injection Hl' as <-.
        rewrite Hc. intros [= ->]. by eapply (Hex k0 t0).
      * rewrite lookup_insert_ne in Hl' by done. by eapply Hfree0.
    + intros k1 t1 h1 i1 Hne1 H1 Hu1. destruct (decide (k1 = k)) as [->|Hn1].
      * rewrite lookup_insert_eq in H1. injection H1 as <-. congruence.
      * rewrite lookup_insert_ne in H1 by done. by eapply Hex0.
  - by eapply distinct_boards_insert.
Qed.

(** A step that writes the device row without committing it. *)
Lemma invariant_reserve s k t t' i :
  invariant managed s → threads s !! k = Some t →
  board t' = board t →
  cc t' = None → uc t' = Some (board t, i) →
  (∀ h' d', h' ≠ board t → devices (db s) !! h' = Some d' →
     Device.current_job d' ≠ Some i) →
  (∀ k' t' h' i', k' ≠ k → threads s !! k' = Some t' →
     uc t' = Some (h', i') → i' ≠ i) →
  invariant managed
    {| db := db s; threads := <[k := t']> (threads s); clock := clock s |}.
Proof.
  intros (HA & HB & HC & HD) Hk Hb Hcc Huc Hfree Hex.
  unfold invariant. cbn. split; [done|]. split; [|split].
  - intros k0 t0 i0 H0 Hc0. destruct (decide (k0 = k)) as [->|Hn].
    + rewrite lookup_insert_eq in H0. injection H0 as <-. congruence.
    + rewrite lookup_insert_ne in H0 by done. by eapply HB.
  - intros k0 t0 h i0 H0 Hu0. destruct (decide (k0 = k)) as [->|Hn].
    + rewrite lookup_insert_eq in H0. injection H0 as <-.
      rewrite Huc in Hu0. injection Hu0 as <- <-.
      split; [done|]. split; [exact Hfree|].
      intros k1 t1 h1 i1 Hne1 H1 Hu1.
      rewrite lookup_insert_ne in H1 by done. by eapply Hex.
    + rewrite lookup_insert_ne in H0 by done.
      destruct (HC k0 t0 h i0 H0 Hu0) as (Hh & Hfree0 & Hex0).
      split; [done|]. split; [exact Hfree0|].
      intros k1 t1 h1 i1 Hne1 H1 Hu1. destruct (decide (k1 = k)) as [->|Hn1].
      * rewrite lookup_insert_eq in H1. injection H1 as <-.
        rewrite Huc in Hu1. injection Hu1 as <- <-.
        intros ->. by eapply (Hex k0 t0).
      * rewrite lookup_insert_ne in H1 by done. by eapply Hex0.
  - by eapply distinct_boards_insert.
Qed.


End InterleavingFacts.

Ltac no_claim :=
  left; unfold uncommitted_claim, committed_claim; cbn;
  try match goal with |- context [if ?b then _ else _] => destruct b end;
  reflexivity.

Lemma step_invariant managed json_loads k s :
  invariant managed s → invariant managed (step managed json_loads k s).
Proof.
  intros Hinv. unfold step.
  destruct (threads s !! k) as [t|] eqn:Hk; [|done].
  destruct t as [h p]. cbn [point board].
  destruct p as [|d|d i j|d i j|d i j|r|e]; cbn [point board].
  - destruct (devices (db s) !! h) as [d|];
      [destruct (decide _)|]; (eapply invariant_move; [done..| |]; no_claim).
  - destruct (take 1 _) as [|[i j] ?];
      (eapply invariant_move; [done..| |]; no_claim).
  - destruct (device_row_locked managed (threads s) k h) eqn:Hlock; [done|].
    destruct (current_job_taken (devices (db s)) h (claim_device i d))
      eqn:Htaken.
    { eapply invariant_move; [done..| |]; no_claim. }
    destruct (claim_in_progress managed (threads s) k i) eqn:Hprog; [done|].
    assert (Hfree : ∀ h' d', h' ≠ h → devices (db s) !! h' = Some d' →
                      Device.current_job d' ≠ Some i).
    { intros h' d'. by eapply current_job_taken_false. }
    assert (Hex : ∀ k' t' h' i', k' ≠ k → threads s !! k' = Some t' →
                    uncommitted_claim managed t' = Some (h', i') → i' ≠ i).
    { intros k' t' h' i' Hne Hl Hu.
      pose proof (others_exist_false _ _ _ _ _ Hprog Hne Hl) as Hf.
      cbn in Hf. rewrite Hu in Hf. by apply bool_decide_eq_false in Hf. }
    unfold write. cbn [board]. destruct managed eqn:Hm.
    + eapply (invariant_reserve true); try done.
    + eapply (invariant_attach false _ _ _ _ _ (claim_device i d) i);
        try done.
  - destruct (job_row_locked managed (threads s) k i); [done|].
    unfold write. eapply invariant_move; try done.
    + by destruct managed.
    + by right.
    + by right.
  - destruct (json_loads (TestJob.definition j)) as [[]|];
      try (eapply invariant_move; [done..| |]; no_claim).
    unfold write. destruct managed eqn:Hm.
    + destruct Hinv as (HA & HB & HC & HD).
      destruct (HC k _ h i Hk) as (_ & Hfree & Hex); [done|].
      eapply (invariant_attach true _ _ _ _ _ (claim_device i d) i);
        try done.
    + eapply invariant_move; try done; first [by right|by left].
  - done.
  - done.
Qed.

Lemma run_invariant managed json_loads schedule s :
  invariant managed s → invariant managed (run managed json_loads schedule s).
Proof.
  revert s. induction schedule as [|k schedule IH]; intros s Hinv; [done|].
  cbn. apply IH. by apply step_invariant.
Qed.

Lemma spawn_from_lookup k boards n t :
  spawn_from k boards !! n = Some t →
  ∃ m h, n = (k + m)%nat ∧ boards !! m = Some h ∧
         t = {| board := h; point := AtLoopHead |}.
Proof.
  revert k. induction boards as [|h boards IH]; intros k; cbn; [done|].
  intros H. apply lookup_insert_Some in H as [[<- <-]|[Hne H]].
  - exists 0%nat, h. split; [lia|done].
  - apply IH in H as (m & h' & -> & Hm & ->).
    exists (S m), h'. split; [lia|done].
Qed.

Lemma spawn_invariant managed tables boards now :
  unique_current_job (devices tables) → NoDup boards →
  invariant managed
    {| db := tables; threads := spawn boards; clock := now |}.
Proof.
  intros Hu Hnd. unfold invariant, spawn. cbn. split; [done|].
  split; [|split].
  - intros k t i Hk. apply spawn_from_lookup in Hk as (m & h & _ & _ & ->).
    done.
  - intros k t h i Hk. apply spawn_from_lookup in Hk as (m & h' & _ & _ & ->).
    unfold uncommitted_claim. cbn. by destruct managed.
  - intros k k' t t' Hk Hk' Hb.
    apply spawn_from_lookup in Hk as (m & h & -> & Hm & ->).
    apply spawn_from_lookup in Hk' as (m' & h' & -> & Hm' & ->).
    cbn in Hb. subst h'. f_equal. by eapply NoDup_lookup.
Qed.


Lemma unique_current_job_tables_one_job :
  unique_current_job (devices tables_one_job).
Proof.
  intros h1 h2 d1 d2 i H1 H2 Hc1 Hc2. cbn in H1.
  apply lookup_insert_Some in H1 as [[<- <-]|[_ H1]]; [done|].
  apply lookup_singleton_Some in H1 as [<- <-]. done.
Qed.



(** ** A thread alone and the sequential function *)

Section Solo.
Variable managed : bool.
Variable json_loads : string → option json.

Lemma step_solo h p tables now :
  step managed json_loads 0 (solo h p tables now) =
  match p with
  | AtLoopHead =>
      solo h match devices tables !! h with
             | None => Raised DoesNotExist
             | Some d => if decide (Device.status d ≠ Device.IDLE)
                         then Returned None else DeviceRead d
             end tables now
  | DeviceRead d =>
      solo h match take 1 (jobs_for_device h d tables) with
             | (i, j) :: _ => Selected d i j
             | [] => Returned None
             end tables now
  | Selected d i j =>
      if current_job_taken (devices tables) h (claim_device i d)
      then solo h AtLoopHead tables now
      else solo h (DeviceSaved d i j)
             (if managed then tables
              else with_device h (claim_device i d) tables) now
  | DeviceSaved d i j =>
      solo h (JobSaved d i j)
        (if managed then tables
         else with_testjob i (claim_job h now i j) tables) now
  | JobSaved d i j =>
      match json_loads (TestJob.definition j) with
      | None => solo h (Raised ValueError) tables now
      | Some (JObj _) =>
          solo h (Returned (Some i))
            (if managed then claim_tables h d i j now tables else tables) now
      | Some _ => solo h (Raised TypeError) tables now
      end
  | Returned _ | Raised _ => solo h p tables now
  end.
Proof.
  unfold step, solo. cbn [threads db clock]. rewrite lookup_singleton_eq.
  cbn [point board].
  destruct p as [|d|d i j|d i j|d i j|r|e]; cbn [point board]; try done.
  - destruct (devices tables !! h); [destruct (decide _)|]; done.
  - by destruct (take 1 _) as [|[] ?].
Qed.

(** A thread running alone goes through one attempt of
    [getJobForBoard_impl] in five statements and leaves the committed rows
    that [getJobForBoard] leaves. *)
Lemma solo_run_agrees h w :
  pending w = committed w →
  let s := run managed json_loads [0; 0; 0; 0; 0]%nat
             (solo h AtLoopHead (committed w) (utcnow w)) in
  let r := getJobForBoard managed json_loads 1 h w in
  match r.1 with
  | Return (Some _) =>
      ∃ i, s = solo h (Returned (Some i)) (committed r.2) (utcnow w)
  | Return None => s = solo h (Returned None) (committed r.2) (utcnow w)
  | Raise e => s = solo h (Raised e) (committed r.2) (utcnow w)
  | Diverge => db s = committed w
  end.
Proof.
  intros Hr. cbn zeta. unfold getJobForBoard.
  rewrite deferForDB_run, getJobForBoard_impl_unfold, pending_prepare, Hr.
  unfold run. cbn [foldl]. rewrite step_solo.
  destruct (devices (committed w) !! h) as [d|] eqn:Hd.
  2: { rewrite !step_solo. cbn. by rewrite committed_prepare. }
  destruct (decide (Device.status d ≠ Device.IDLE)) as [Hne|Hs].
  { rewrite !step_solo. cbn. by rewrite committed_prepare. }
  rewrite step_solo.
  destruct (jobs_for_device h d (committed w)) as [|[i j] rest] eqn:Hj.
  { cbn [take]. rewrite !step_solo. cbn. by rewrite committed_prepare. }
  cbn [take]. rewrite step_solo.
  destruct (current_job_taken _ _ _) eqn:Ht.
  { rewrite !step_solo, Hd.
    destruct (decide _) as [|_]; [done|]. rewrite Hj. reflexivity. }
  rewrite !step_solo. cbn zeta.
  destruct (json_loads (TestJob.definition j)) as [[]|] eqn:Hl; cbn;
    rewrite ?utcnow_prepare, ?pending_prepare, ?committed_prepare, ?Hr by done;
    try (destruct managed; reflexivity).
  exists i. destruct managed; reflexivity.
Qed.
End Solo.

(** * Further properties *)

(** ** The wrapper on every exit path *)

Lemma scopes_prepare w : scopes (prepare w) = S (scopes w).
Proof. unfold prepare. cbn. by destruct (connection w). Qed.

Lemma storage_prepare w : storage (prepare w) = storage w.
Proof. unfold prepare. cbn. by destruct (connection w). Qed.

Lemma log_prepare w : log (prepare w) = log w.
Proof. unfold prepare. cbn. by destruct (connection w). Qed.

Lemma prepare_at_rest w :
  pending w = committed w → pending (prepare w) = committed (prepare w).
Proof. intros H. by rewrite pending_prepare, committed_prepare. Qed.

Lemma connection_prepare_is_Some w : is_Some (connection (prepare w)).
Proof. unfold prepare. cbn. destruct (connection w) eqn:H; cbn; eauto. Qed.

Lemma scopes_discard w : scopes (discard_connection w) = scopes w.
Proof. unfold discard_connection. by destruct (connection w). Qed.

Lemma committed_discard w : committed (discard_connection w) = committed w.
Proof. unfold discard_connection. by destruct (connection w). Qed.

(** Whatever the unit of work returns or raises, the wrapper leaves the
    scope depth it found, nothing pending, and in the database exactly what
    the unit of work had committed by itself. *)
Lemma deferForDB_exit {A} (func : Py A) w :
  (func (prepare w)).1 ≠ Diverge →
  scopes (func (prepare w)).2 = scopes (prepare w) →
  (deferForDB func w).1 = (func (prepare w)).1 ∧
  scopes (deferForDB func w).2 = scopes w ∧
  pending (deferForDB func w).2 = committed (deferForDB func w).2 ∧
  committed (deferForDB func w).2 = committed (func (prepare w)).2.
Proof.
  rewrite deferForDB_run. destruct (func (prepare w)) as [[a|e|] w1]; cbn.
  - intros _ ->. by rewrite scopes_prepare.
  - intros _ Hs. destruct (is_store_error e && forces_reconnection (str e));
      cbn; rewrite ?scopes_discard, ?committed_discard, Hs, scopes_prepare;
      done.
  - done.
Qed.

Lemma deferForDB_closed {A} (func : Py A) w :
  (func (prepare w)).1 ≠ Diverge →
  scopes (func (prepare w)).2 = scopes (prepare w) →
  scopes (deferForDB func w).2 = scopes w ∧
  pending (deferForDB func w).2 = committed (deferForDB func w).2.
Proof.
  intros H1 H2. by destruct (deferForDB_exit func w H1 H2) as (_ & ? & ? & _).
Qed.

Section Scopes.
Variable managed : bool.
Variable json_loads : string → option json.

Lemma getJobForBoard_impl_scopes fuel h w :
  scopes (getJobForBoard_impl managed json_loads fuel h w).2 = scopes w.
Proof.
  revert w. induction fuel as [|fuel IH]; intros w; [done|].
  rewrite getJobForBoard_impl_unfold.
  destruct (devices (pending w) !! h) as [d|]; [|done].
  destruct (decide _); [done|].
  destruct (jobs_for_device h d (pending w)) as [|[i j] rest]; [done|].
  destruct (current_job_taken _ _ _); [by rewrite IH|].
  cbn zeta. by destruct (json_loads (TestJob.definition j)) as [[]|].
Qed.

Lemma getLogFileForJobOnBoard_impl_scopes h w :
  scopes (getLogFileForJobOnBoard_impl h w).2 = scopes w.
Proof.
  unfold getLogFileForJobOnBoard_impl, Device_get, Device_current_job.
  py_unfold. cbn.
  destruct (devices (pending w) !! h) as [d|]; [|done]. cbn.
  destruct (Device.current_job d) as [i|]; [|done]. cbn.
  destruct (testjobs (pending w) !! i) as [j|]; [|done]. cbn.
  destruct (TestJob.log_file j) as [n|]; [|done]. cbn.
  by destruct (storage w !! n).
Qed.

Lemma jobCheckForCancellation_impl_scopes h w :
  scopes (jobCheckForCancellation_impl h w).2 = scopes w.
Proof.
  unfold jobCheckForCancellation_impl, Device_get, Device_current_job.
  py_unfold. cbn.
  destruct (devices (pending w) !! h) as [d|]; [|done]. cbn.
  destruct (Device.current_job d) as [i|]; [|done]. cbn.
  by destruct (testjobs (pending w) !! i) as [j|].
Qed.

Lemma jobCompleted_impl_cases h e w :
  jobCompleted_impl managed h e w =
  match devices (pending w) !! h with
  | None => (Raise DoesNotExist, logger (Debug_marking_complete h) w)
  | Some d =>
      let w1 := logger (Debug_marking_complete h) w in
      let w2 :=
        if decide (Device.status d = Device.RUNNING) then w1
        else if decide (Device.status d = Device.OFFLINING) then w1
        else logger (Error_unexpected_device_state (Device.status d)) w1 in
      match Device.current_job d with
      | None => (Raise AttributeError, w2)
      | Some i =>
          match testjobs (pending w) !! i with
          | None => (Raise DoesNotExist, w2)
          | Some j => (Return tt, after_complete managed h d i j e w)
          end
      end
  end.
Proof.
  destruct (devices (pending w) !! h) as [d|] eqn:Hd.
  2: { unfold jobCompleted_impl, Device_get. py_unfold. cbn. by rewrite Hd. }
  destruct (Device.current_job d) as [i|] eqn:Hc.
  - destruct (testjobs (pending w) !! i) as [j|] eqn:Hj.
    + by apply jobCompleted_impl_run.
    + unfold jobCompleted_impl, Device_get, Device_current_job.
      py_unfold. cbn. rewrite Hd. cbn.
      destruct (decide (Device.status d = Device.RUNNING)); cbn;
        [|destruct (decide (Device.status d = Device.OFFLINING)); cbn];
        rewrite Hc; cbn; by rewrite Hj.
  - unfold jobCompleted_impl, Device_get, Device_current_job.
    py_unfold. cbn. rewrite Hd. cbn.
    destruct (decide (Device.status d = Device.RUNNING)); cbn;
      [|destruct (decide (Device.status d = Device.OFFLINING)); cbn];
      by rewrite Hc.
Qed.

Lemma jobCompleted_impl_scopes h e w :
  scopes (jobCompleted_impl managed h e w).2 = scopes w.
Proof.
  rewrite jobCompleted_impl_cases.
  destruct (devices (pending w) !! h) as [d|]; [|done]. cbn zeta.
  destruct (Device.current_job d) as [i|].
  - destruct (testjobs (pending w) !! i) as [j|].
    + unfold after_complete. cbn.
      destruct (decide (Device.status d = Device.RUNNING));
        [|destruct (decide (Device.status d = Device.OFFLINING))];
        (destruct (decide (TestJob.status j = TestJob.RUNNING));
         [|destruct (decide (TestJob.status j = TestJob.CANCELING))]); done.
    + cbn. destruct (decide (Device.status d = Device.RUNNING));
        [|destruct (decide (Device.status d = Device.OFFLINING))]; done.
  - cbn. destruct (decide (Device.status d = Device.RUNNING));
      [|destruct (decide (Device.status d = Device.OFFLINING))]; done.
Qed.

Lemma jobOobData_impl_cases h key value w :
  jobOobData_impl managed h key value w =
  let w1 := logger (Info_oob_data h key value) w in
  if decide (key = "dashboard-put-result") then
    match devices (pending w) !! h with
    | None => (Raise DoesNotExist, w1)
    | Some d =>
        match Device.current_job d with
        | None => (Raise AttributeError, w1)
        | Some i =>
            match testjobs (pending w) !! i with
            | None => (Raise DoesNotExist, w1)
            | Some j => (Return tt, after_oob h i j value w)
            end
        end
    end
  else (Return tt, w1).
Proof.
  cbn zeta. destruct (decide (key = "dashboard-put-result")) as [->|Hne].
  - destruct (devices (pending w) !! h) as [d|] eqn:Hd.
    2: { unfold jobOobData_impl, Device_get. py_unfold.
         destruct (decide _); [|done]. cbn. by rewrite Hd. }
    destruct (Device.current_job d) as [i|] eqn:Hc.
    + destruct (testjobs (pending w) !! i) as [j|] eqn:Hj.
      * by apply (jobOobData_impl_run managed h value w d).
      * unfold jobOobData_impl, Device_get, Device_current_job. py_unfold.
        destruct (decide _); [|done]. cbn. rewrite Hd. cbn. rewrite Hc. cbn.
        by rewrite Hj.
    + unfold jobOobData_impl, Device_get, Device_current_job. py_unfold.
      destruct (decide _); [|done]. cbn. rewrite Hd. cbn. by rewrite Hc.
  - unfold jobOobData_impl. py_unfold. by destruct (decide _).
Qed.

Lemma jobOobData_impl_scopes h key value w :
  scopes (jobOobData_impl managed h key value w).2 = scopes w.
Proof.
  rewrite jobOobData_impl_cases. cbn zeta. destruct (decide _); [|done].
  destruct (devices (pending w) !! h) as [d|]; [|done].
  destruct (Device.current_job d) as [i|]; [|done].
  by destruct (testjobs (pending w) !! i).
Qed.

End Scopes.

(** ** Errors that are not store errors *)

(** X2.  An error of the unit of work that is not a DatabaseError,
    OperationalError or InterfaceError is raised unchanged and the cached
    connection and the log are left alone, whatever its message says. *)
Theorem deferForDB_other_error {A} (func : Py A) w e w1 :
  func (prepare w) = (Raise e, w1) →
  is_store_error e = false →
  deferForDB func w = (Raise e, finish w1) ∧
  connection (finish w1) = connection w1 ∧
  log (finish w1) = log w1.
Proof.
  intros Hf He. rewrite deferForDB_run, Hf, He. done.
Qed.

Lemma deferForDB_other_error_witness :
  let e := OtherError "connection already closed" in
  let w := sample_world tables_running in
  deferForDB (raise e : Py unit) w = (Raise e, finish (prepare w)) ∧
  connection (finish (prepare w)) = connection (prepare w) ∧
  log (finish (prepare w)) = log (prepare w).
Proof.
  exact (deferForDB_other_error (raise (OtherError "connection already closed")
           : Py unit) (sample_world tables_running) _ _ eq_refl eq_refl).
Defined.

(** ** getBoardList *)

(** X3.  getBoardList returns the hostname of every row of the Device table
    and nothing else, each once, and changes neither the tables, nor the
    files, nor the log. *)
Theorem getBoardList_lists_every_device w :
  pending w = committed w →
  ∃ boards w',
    getBoardList w = (Return boards, w') ∧
    (∀ h, h ∈ boards ↔ is_Some (devices (committed w) !! h)) ∧
    NoDup boards ∧
    length boards = size (devices (committed w)) ∧
    committed w' = committed w ∧ storage w' = storage w ∧ log w' = log w.
Proof.
  intros Hr. eexists _, _. split.
  { unfold getBoardList, getBoardList_impl. rewrite deferForDB_run.
    py_unfold. reflexivity. }
  rewrite pending_prepare, Hr. split; [|split; [|split]].
  - intros h. rewrite list_elem_of_fmap. split.
    + intros [[h' d] [-> Hin]]. apply elem_of_map_to_list in Hin. by exists d.
    + intros [d Hd]. exists (h, d). split; [done|].
      by apply elem_of_map_to_list.
  - apply NoDup_fst_map_to_list.
  - by rewrite length_fmap, length_map_to_list.
  - cbn. by rewrite committed_prepare, storage_prepare, log_prepare.
Qed.

Lemma getBoardList_lists_every_device_witness :
  ∃ boards w',
    getBoardList (sample_world tables_two_targets) = (Return boards, w') ∧
    (∀ h, h ∈ boards ↔ is_Some (devices tables_two_targets !! h)) ∧
    NoDup boards ∧
    length boards = size (devices tables_two_targets) ∧
    committed w' = tables_two_targets ∧ storage w' = ∅ ∧ log w' = [].
Proof.
  exact (getBoardList_lists_every_device (sample_world tables_two_targets)
           eq_refl).
Defined.

(** ** A board the table does not know *)

Section UnknownBoard.
Variable managed : bool.
Variable json_loads : string → option json.

(** X4.  For a hostname the Device table does not hold, getJobForBoard,
    getLogFileForJobOnBoard, jobCompleted, jobOobData (with the key it
    knows) and jobCheckForCancellation raise DoesNotExist and leave the
    tables and the files as they were. *)
Theorem unknown_board_raises_DoesNotExist fuel h exit_code value w :
  pending w = committed w →
  devices (committed w) !! h = None →
  let missing {A} (r : outcome A * World) :=
    r.1 = Raise DoesNotExist ∧ committed r.2 = committed w ∧
    storage r.2 = storage w in
  missing (getJobForBoard managed json_loads (S fuel) h w) ∧
  missing (getLogFileForJobOnBoard h w) ∧
  missing (jobCompleted managed h exit_code w) ∧
  missing (jobOobData managed h "dashboard-put-result" value w) ∧
  missing (jobCheckForCancellation h w).
Proof.
  intros Hr Hd. cbn zeta.
  assert (Hd' : devices (pending (prepare w)) !! h = None)
    by by rewrite pending_prepare, Hr.
  unfold getJobForBoard, getLogFileForJobOnBoard, jobCompleted, jobOobData,
    jobCheckForCancellation.
  rewrite !deferForDB_run, getJobForBoard_impl_unfold,
    jobCompleted_impl_cases, jobOobData_impl_cases, Hd'.
  unfold getLogFileForJobOnBoard_impl, jobCheckForCancellation_impl,
    Device_get.
  py_unfold. rewrite Hd'. cbn zeta.
  destruct (decide _) as [_|]; [|done]. cbn.
  by rewrite committed_prepare, storage_prepare.
Qed.
End UnknownBoard.

Lemma unknown_board_raises_DoesNotExist_witness :
  let w := sample_world tables_running in
  let missing {A} (r : outcome A * World) :=
    r.1 = Raise DoesNotExist ∧ committed r.2 = committed w ∧
    storage r.2 = storage w in
  missing (getJobForBoard true sample_loads 1 "beagle01" w) ∧
  missing (getLogFileForJobOnBoard "beagle01" w) ∧
  missing (jobCompleted true "beagle01" 0 w) ∧
  missing (jobOobData true "beagle01" "dashboard-put-result" "x" w) ∧
  missing (jobCheckForCancellation "beagle01" w).
Proof.
  exact (unknown_board_raises_DoesNotExist true sample_loads 0 "beagle01" 0 "x"
           (sample_world tables_running) eq_refl eq_refl).
Defined.

(** ** Nothing to claim *)

Section NothingToClaim.
Variable managed : bool.
Variable json_loads : string → option json.

Lemma getJobForBoard_impl_none fuel h w w' :
  getJobForBoard_impl managed json_loads fuel h w = (Return None, w') →
  committed w' = committed w ∧ storage w' = storage w.
Proof.
  revert w. induction fuel as [|fuel IH]; intros w; [done|].
  rewrite getJobForBoard_impl_unfold.
  destruct (devices (pending w) !! h) as [d|]; [|done].
  destruct (decide _); [by intros [= <-]|].
  destruct (jobs_for_device h d (pending w)) as [|[i j] rest];
    [by intros [= <-]|].
  destruct (current_job_taken _ _ _).
  - intros H. by apply IH in H.
  - cbn zeta. by destruct (json_loads (TestJob.definition j)) as [[]|].
Qed.

(** X5.  A call of getJobForBoard that returns None has changed neither the
    tables nor the files. *)
Theorem getJobForBoard_none_changes_nothing fuel h w w' :
  pending w = committed w →
  getJobForBoard managed json_loads fuel h w = (Return None, w') →
  committed w' = committed w ∧ pending w' = committed w ∧
  storage w' = storage w.
Proof.
  intros Hr Hrun. unfold getJobForBoard in Hrun.
  apply deferForDB_returns in Hrun as (w1 & Hrun & ->).
  apply getJobForBoard_impl_none in Hrun as [Hc Hs]. cbn.
  by rewrite Hc, Hs, committed_prepare, storage_prepare.
Qed.
End NothingToClaim.

Lemma getJobForBoard_none_changes_nothing_witness :
  let r := getJobForBoard true sample_loads 1 "panda02"
             (sample_world tables_two_targets) in
  committed r.2 = tables_two_targets ∧ pending r.2 = tables_two_targets ∧
  storage r.2 = ∅.
Proof.
  cbn zeta.
  apply (getJobForBoard_none_changes_nothing true sample_loads 1 "panda02"
           (sample_world tables_two_targets)); [reflexivity|].
  vm_compute. reflexivity.
Defined.

(** ** The known key on a board without a job *)

(** X16.  jobOobData with the key it knows, for a device with no job
    attached, raises AttributeError and leaves the tables as they were. *)
Theorem jobOobData_without_job_raises managed h value w d :
  pending w = committed w →
  devices (committed w) !! h = Some d →
  Device.current_job d = None →
  ∃ w',
    jobOobData managed h "dashboard-put-result" value w
    = (Raise AttributeError, w') ∧
    committed w' = committed w ∧ pending w' = committed w.
Proof.
  intros Hr Hd Hc. eexists. split.
  { unfold jobOobData. rewrite deferForDB_run, jobOobData_impl_cases.
    cbn zeta. destruct (decide _) as [_|]; [|done].
    rewrite pending_prepare, Hr, Hd, Hc. reflexivity. }
  cbn. by rewrite committed_prepare.
Qed.

Lemma jobOobData_without_job_raises_witness :
  ∃ w',
    jobOobData true "panda01" "dashboard-put-result" "http://x"
      (sample_world tables_queue) = (Raise AttributeError, w') ∧
    committed w' = tables_queue ∧ pending w' = tables_queue.
Proof.
  exact (jobOobData_without_job_raises true "panda01" "http://x"
           (sample_world tables_queue) (sample_device Device.IDLE None)
           eq_refl eq_refl eq_refl).
Defined.

(** ** getLogFileForJobOnBoard and jobCheckForCancellation on an attached
    job *)

Lemma getLogFileForJobOnBoard_impl_cases h w :
  getLogFileForJobOnBoard_impl h w =
  match devices (pending w) !! h with
  | None => (Raise DoesNotExist, w)
  | Some d =>
      match Device.current_job d with
      | None => (Raise AttributeError, w)
      | Some i =>
          match testjobs (pending w) !! i with
          | None => (Raise DoesNotExist, w)
          | Some j =>
              match TestJob.log_file j with
              | None => (Raise ValueError, w)
              | Some name =>
                  match storage w !! name with
                  | None => (Raise IOError, w)
                  | Some _ =>
                      (Return name,
                       set_storage (<[name := ""]> (storage w)) w)
                  end
              end
          end
      end
  end.
Proof.
  unfold getLogFileForJobOnBoard_impl, Device_get, Device_current_job.
  py_unfold. cbn.
  destruct (devices (pending w) !! h) as [d|]; [|done]. cbn.
  destruct (Device.current_job d) as [i|]; [|done]. cbn.
  destruct (testjobs (pending w) !! i) as [j|]; [|done]. cbn.
  destruct (TestJob.log_file j) as [n|]; [|done]. cbn.
  by destruct (storage w !! n).
Qed.

Lemma jobCheckForCancellation_impl_cases h w :
  jobCheckForCancellation_impl h w =
  match devices (pending w) !! h with
  | None => (Raise DoesNotExist, w)
  | Some d =>
      match Device.current_job d with
      | None => (Raise AttributeError, w)
      | Some i =>
          match testjobs (pending w) !! i with
          | None => (Raise DoesNotExist, w)
          | Some j =>
              (Return (bool_decide (TestJob.status j ≠ TestJob.RUNNING)), w)
          end
      end
  end.
Proof.
  unfold jobCheckForCancellation_impl, Device_get, Device_current_job.
  py_unfold. cbn.
  destruct (devices (pending w) !! h) as [d|]; [|done]. cbn.
  destruct (Device.current_job d) as [i|]; [|done]. cbn.
  by destruct (testjobs (pending w) !! i) as [j|].
Qed.

(** X12.  getLogFileForJobOnBoard for a device with an attached job never
    changes the tables; it raises ValueError when the job has no log file,
    IOError when the file is not in the storage, and otherwise returns the
    file's name and leaves the file empty, whatever it held. *)
Theorem getLogFileForJobOnBoard_truncates h w d i j :
  pending w = committed w →
  devices (committed w) !! h = Some d →
  Device.current_job d = Some i →
  testjobs (committed w) !! i = Some j →
  let r := getLogFileForJobOnBoard h w in
  committed r.2 = committed w ∧
  match TestJob.log_file j with
  | None => r.1 = Raise ValueError ∧ storage r.2 = storage w
  | Some name =>
      match storage w !! name with
      | None => r.1 = Raise IOError ∧ storage r.2 = storage w
      | Some _ =>
          r.1 = Return name ∧ storage r.2 = <[name := ""]> (storage w)
      end
  end.
Proof.
  intros Hr Hd Hc Hj. cbn zeta. unfold getLogFileForJobOnBoard.
  rewrite deferForDB_run, getLogFileForJobOnBoard_impl_cases.
  rewrite pending_prepare, Hr, Hd, Hc, Hj, storage_prepare.
  destruct (TestJob.log_file j) as [name|]; cbn.
  - destruct (storage w !! name); cbn;
      by rewrite committed_prepare, ?storage_prepare.
  - by rewrite committed_prepare, storage_prepare.
Qed.

(** X10.  jobCheckForCancellation for a device with an attached job returns
    whether the job's status differs from RUNNING, changes neither tables,
    files nor log, and gives the same answer when called again. *)
Theorem jobCheckForCancellation_reads_only h w d i j :
  pending w = committed w →
  devices (committed w) !! h = Some d →
  Device.current_job d = Some i →
  testjobs (committed w) !! i = Some j →
  ∃ w',
    jobCheckForCancellation h w
    = (Return (bool_decide (TestJob.status j ≠ TestJob.RUNNING)), w') ∧
    committed w' = committed w ∧ pending w' = committed w ∧
    storage w' = storage w ∧ log w' = log w ∧
    (jobCheckForCancellation h w').1 = (jobCheckForCancellation h w).1.
Proof.
  intros Hr Hd Hc Hj.
  assert (Hrun : ∀ w0, pending w0 = committed w →
            jobCheckForCancellation h w0
            = (Return (bool_decide (TestJob.status j ≠ TestJob.RUNNING)),
               finish (prepare w0))).
  { intros w0 H0. unfold jobCheckForCancellation.
    rewrite deferForDB_run, jobCheckForCancellation_impl_cases.
    by rewrite pending_prepare, H0, Hd, Hc, Hj. }
  exists (finish (prepare w)). split; [by apply Hrun|].
  assert (Hc' : committed (finish (prepare w)) = committed w)
    by (cbn; by rewrite committed_prepare).
  repeat split; try done.
  - cbn. by rewrite storage_prepare.
  - cbn. by rewrite log_prepare.
  - rewrite (Hrun w Hr), (Hrun (finish (prepare w))); [done|].
    cbn. by rewrite committed_prepare.
Qed.

Lemma getLogFileForJobOnBoard_truncates_witness :
  let r := getLogFileForJobOnBoard "panda01" world_logging in
  committed r.2 = tables_logging ∧
  r.1 = Return "job-1.log" ∧
  storage r.2 = <["job-1.log" := ""]> (storage world_logging).
Proof.
  exact (getLogFileForJobOnBoard_truncates "panda01" world_logging
           (sample_device Device.RUNNING (Some 1)) 1
           (TestJob.set_log_file "job-1.log"
              (sample_job TestJob.CANCELING None (Some "panda") 1))
           eq_refl eq_refl eq_refl eq_refl).
Defined.

Lemma jobCheckForCancellation_reads_only_witness :
  ∃ w',
    jobCheckForCancellation "panda01" world_logging = (Return true, w') ∧
    committed w' = tables_logging ∧ pending w' = tables_logging ∧
    storage w' = storage world_logging ∧ log w' = [] ∧
    (jobCheckForCancellation "panda01" w').1
    = (jobCheckForCancellation "panda01" world_logging).1.
Proof.
  exact (jobCheckForCancellation_reads_only "panda01" world_logging
           (sample_device Device.RUNNING (Some 1)) 1
           (TestJob.set_log_file "job-1.log"
              (sample_job TestJob.CANCELING None (Some "panda") 1))
           eq_refl eq_refl eq_refl eq_refl).
Defined.

(** ** One attempt on a world in which nothing is pending *)

Section Claim.
Variable managed : bool.
Variable json_loads : string → option json.

(** The world a successful claim leaves. *)
Lemma getJobForBoard_claimed_at_rest fuel h w v w' :
  pending w = committed w →
  getJobForBoard managed json_loads fuel h w = (Return (Some v), w') →
  ∃ d i j rest m,
    devices (committed w) !! h = Some d ∧
    Device.status d = Device.IDLE ∧
    jobs_for_device h d (committed w) = (i, j) :: rest ∧
    testjobs (committed w) !! i = Some j ∧
    TestJob.status j = TestJob.SUBMITTED ∧
    current_job_taken (devices (committed w)) h (claim_device i d) = false ∧
    json_loads (TestJob.definition j) = Some (JObj m) ∧
    v = JObj (<["target" := JStr h]> m) ∧
    committed w' = claim_tables h d i j (utcnow w) (committed w) ∧
    pending w' = committed w' ∧
    storage w' = <[log_file_name i := ""]> (storage w) ∧
    utcnow w' = utcnow w.
Proof.
  intros Hr Hrun. unfold getJobForBoard in Hrun.
  apply deferForDB_returns in Hrun as (w1 & Hrun & ->).
  pose proof (prepare_at_rest w Hr) as Hr'.
  destruct fuel as [|fuel]; [done|].
  rewrite getJobForBoard_impl_unfold in Hrun.
  rewrite pending_prepare, Hr in Hrun.
  destruct (devices (committed w) !! h) as [d|] eqn:Hd; [|done].
  destruct (decide _) as [|Hs]; [done|]. apply dec_stable in Hs.
  destruct (jobs_for_device h d (committed w)) as [|[i j] rest] eqn:Hj;
    [done|].
  destruct (current_job_taken _ _ _) eqn:Ht.
  { pose proof (getJobForBoard_impl_conflict_diverges managed json_loads fuel
                  h (set_pending (committed (prepare w))
                       (logger (Info_assigned_to_another_board i)
                          (prepare w))) d i j rest) as Hdiv.
    cbn in Hdiv. rewrite committed_prepare in Hdiv by done.
    cbn in Hrun. rewrite committed_prepare in Hrun by done.
    rewrite Hrun in Hdiv. by specialize (Hdiv Hd Hs Hj Ht eq_refl). }
  cbn zeta in Hrun.
  destruct (json_loads (TestJob.definition j)) as [[]|] eqn:Hl; try done.
  injection Hrun as <- <-.
  assert (Hc : candidate h d (committed w) i j)
    by (apply candidate_iff; rewrite Hj; left).
  destruct Hc as (Hlj & Hsub & _).
  exists d, i, j, rest, m. cbn.
  rewrite pending_prepare, Hr, utcnow_prepare, storage_prepare. done.
Qed.




(** X11.  After a successful getJobForBoard, jobCheckForCancellation for the
    same board returns False. *)
Theorem claim_then_not_cancelled fuel h w v w' :
  pending w = committed w →
  getJobForBoard managed json_loads fuel h w = (Return (Some v), w') →
  (jobCheckForCancellation h w').1 = Return false.
Proof.
  intros Hr Hrun.
  apply getJobForBoard_claimed_at_rest in Hrun
    as (d & i & j & rest & m & Hd & Hs & Hj & Hlj & Hsub & Ht & Hl & -> & Hc
        & Hp & Hst & Hnow); [|done].
  assert (Hd' : devices (committed w') !! h = Some (claim_device i d))
    by (rewrite Hc; cbn; by rewrite lookup_insert_eq).
  assert (Hj' : testjobs (committed w') !! i
                = Some (claim_job h (utcnow w) i j))
    by (rewrite Hc; cbn; by rewrite lookup_insert_eq).
  unfold jobCheckForCancellation.
  rewrite deferForDB_run, jobCheckForCancellation_impl_cases.
  rewrite pending_prepare, Hp, Hd'.
  cbn [claim_device Device.current_job Device.set_current_job].
  rewrite Hj'. cbn. by case_bool_decide.
Qed.

(** X9.  After a successful getJobForBoard, asking again for the same board
    returns None, and a job later returned for any board is another job. *)
Theorem claimed_job_is_not_handed_out_again fuel h w v w' :
  pending w = committed w →
  getJobForBoard managed json_loads fuel h w = (Return (Some v), w') →
  ∃ i d',
    devices (committed w') !! h = Some d' ∧
    Device.current_job d' = Some i ∧
    (∀ fuel', getJobForBoard managed json_loads (S fuel') h w'
              = (Return None, finish (prepare w'))) ∧
    (∀ fuel' h2 v2 w2,
       getJobForBoard managed json_loads fuel' h2 w' = (Return (Some v2), w2) →
       ∃ i2 d2,
         devices (committed w2) !! h2 = Some d2 ∧
         Device.current_job d2 = Some i2 ∧ i2 ≠ i).
Proof.
  intros Hr Hrun.
  apply getJobForBoard_claimed_at_rest in Hrun
    as (d & i & j & rest & m & Hd & Hs & Hj & Hlj & Hsub & Ht & Hl & -> & Hc
        & Hp & Hst & Hnow); [|done].
  exists i, (claim_device i d).
  assert (Hd' : devices (committed w') !! h = Some (claim_device i d))
    by (rewrite Hc; cbn; by rewrite lookup_insert_eq).
  assert (Hj' : testjobs (committed w') !! i
                = Some (claim_job h (utcnow w) i j))
    by (rewrite Hc; cbn; by rewrite lookup_insert_eq).
  split; [done|]. split; [done|]. split.
  - intros fuel'. unfold getJobForBoard.
    rewrite deferForDB_run, getJobForBoard_impl_unfold.
    rewrite pending_prepare, Hp, Hd'.
    by destruct (decide _) as [_|Hn]; [|destruct Hn].
  - intros fuel' h2 v2 w2 Hrun2.
    apply getJobForBoard_claimed_at_rest in Hrun2
      as (d2 & i2 & j2 & rest2 & m2 & Hd2 & Hs2 & Hj2 & Hlj2 & Hsub2 & _ & _
          & _ & Hc2 & _); [|done].
    exists i2, (claim_device i2 d2). rewrite Hc2. cbn.
    rewrite lookup_insert_eq. split; [done|]. split; [done|].
    intros ->. rewrite Hj' in Hlj2. injection Hlj2 as <-. done.
Qed.

End Claim.

Lemma sample_claim_run_eq :
  getJobForBoard true sample_loads 1 "panda01" (sample_world tables_queue)
  = (Return (Some (JObj (<["target" := JStr "panda01"]> ∅))),
     sample_claim_run.2).
Proof. vm_compute. reflexivity. Qed.




Lemma claim_then_not_cancelled_witness :
  (jobCheckForCancellation "panda01" sample_claim_run.2).1 = Return false.
Proof.
  exact (claim_then_not_cancelled true sample_loads 1 "panda01"
           (sample_world tables_queue) _ _ eq_refl sample_claim_run_eq).
Defined.

Lemma claimed_job_is_not_handed_out_again_witness :
  ∃ i d',
    devices (committed sample_claim_run.2) !! "panda01" = Some d' ∧
    Device.current_job d' = Some i ∧
    (∀ fuel', getJobForBoard true sample_loads (S fuel') "panda01"
                sample_claim_run.2
              = (Return None, finish (prepare sample_claim_run.2))) ∧
    (∀ fuel' h2 v2 w2,
       getJobForBoard true sample_loads fuel' h2 sample_claim_run.2
       = (Return (Some v2), w2) →
       ∃ i2 d2,
         devices (committed w2) !! h2 = Some d2 ∧
         Device.current_job d2 = Some i2 ∧ i2 ≠ i).
Proof.
  exact (claimed_job_is_not_handed_out_again true sample_loads 1 "panda01"
           (sample_world tables_queue) _ _ eq_refl sample_claim_run_eq).
Defined.

(** ** jobCompleted after jobCompleted, and after a claim *)

(** X13.  A second jobCompleted for the same device, right after a first one
    that returned: when every save() commits on its own it raises
    AttributeError (the first call detached the job); under managed
    transactions it returns again (the first call left nothing); either way
    it changes nothing in the database. *)
Theorem jobCompleted_twice managed h e e' w d i j :
  pending w = committed w →
  devices (committed w) !! h = Some d →
  Device.current_job d = Some i →
  testjobs (committed w) !! i = Some j →
  ∃ w1,
    jobCompleted managed h e w = (Return tt, w1) ∧
    (jobCompleted managed h e' w1).1
    = (if managed then Return tt else Raise AttributeError) ∧
    committed (jobCompleted managed h e' w1).2 = committed w1.
Proof.
  intros Hr Hd Hc Hj.
  assert (Hrun := jobCompleted_impl_run managed h e (prepare w) d i j).
  rewrite pending_prepare, Hr in Hrun. specialize (Hrun Hd Hc Hj).
  exists (finish (after_complete managed h d i j e (prepare w))). split.
  { unfold jobCompleted. by rewrite deferForDB_run, Hrun. }
  set (w1 := finish (after_complete managed h d i j e (prepare w))).
  assert (Hp1 : pending (prepare w1)
                = (if managed then committed w
                   else complete_tables h d i j e (utcnow w) (committed w))).
  { rewrite pending_prepare. subst w1. cbn.
    rewrite pending_prepare, committed_prepare, utcnow_prepare, Hr by done.
    done. }
  assert (Hc1 : committed (prepare w1) = pending (prepare w1)).
  { rewrite pending_prepare, committed_prepare; done. }
  assert (Hw1 : committed w1 = pending (prepare w1))
    by by rewrite pending_prepare.
  clearbody w1. destruct managed.
  - assert (Hsec := jobCompleted_impl_run true h e' (prepare w1) d i j).
    rewrite Hp1 in Hsec. specialize (Hsec Hd Hc Hj).
    unfold jobCompleted. rewrite deferForDB_run, Hsec. cbn.
    by rewrite Hc1, Hw1.
  - assert (∃ w2, jobCompleted_impl false h e' (prepare w1)
                  = (Raise AttributeError, w2)
                  ∧ committed w2 = committed (prepare w1)) as (w2 & Hsec & H2).
    { rewrite jobCompleted_impl_cases, Hp1. unfold complete_tables.
      cbn [devices with_testjob with_device]. rewrite lookup_insert_eq.
      cbn zeta.
      cbn [complete_device Device.current_job Device.set_current_job].
      eexists. split; [reflexivity|].
      destruct (decide _); [|destruct (decide _)]; done. }
    unfold jobCompleted. rewrite deferForDB_run, Hsec. cbn.
    by rewrite H2, Hc1, Hw1.
Qed.

Lemma jobCompleted_twice_witness :
  ∃ w1,
    jobCompleted false "panda01" 0 (sample_world tables_running)
    = (Return tt, w1) ∧
    (jobCompleted false "panda01" 0 w1).1 = Raise AttributeError ∧
    committed (jobCompleted false "panda01" 0 w1).2 = committed w1.
Proof.
  exact (jobCompleted_twice false "panda01" 0 0 (sample_world tables_running)
           (sample_device Device.RUNNING (Some 1)) 1
           (sample_job TestJob.RUNNING None (Some "panda") 1)
           eq_refl eq_refl eq_refl eq_refl).
Defined.

(** X14.  When every save() commits on its own, jobCompleted after a
    successful getJobForBoard returns and leaves the device IDLE with no
    job, and the job COMPLETE for exit code 0 and INCOMPLETE otherwise, with
    [actual_device], [start_time] and [end_time] set; the job is in no
    board's queryset any more. *)
Theorem claim_then_complete json_loads fuel h e w v w1 :
  pending w = committed w →
  getJobForBoard false json_loads fuel h w = (Return (Some v), w1) →
  ∃ i j w2 d2 j2,
    testjobs (committed w) !! i = Some j ∧
    jobCompleted false h e w1 = (Return tt, w2) ∧
    devices (committed w2) !! h = Some d2 ∧
    Device.status d2 = Device.IDLE ∧ Device.current_job d2 = None ∧
    testjobs (committed w2) !! i = Some j2 ∧
    TestJob.status j2
    = (if decide (e = 0) then TestJob.COMPLETE else TestJob.INCOMPLETE) ∧
    TestJob.actual_device j2 = Some h ∧
    TestJob.start_time j2 = Some (utcnow w) ∧
    TestJob.end_time j2 = Some (utcnow w) ∧
    (∀ h2 d', ¬ (i, j2) ∈ jobs_for_device h2 d' (committed w2)).
Proof.
  intros Hr Hrun.
  apply getJobForBoard_claimed_at_rest in Hrun
    as (d & i & j & rest & m & Hd & Hs & Hj & Hlj & Hsub & Ht & Hl & -> & Hc
        & Hp & Hst & Hnow); [|done].
  assert (Hd' : devices (committed w1) !! h = Some (claim_device i d))
    by (rewrite Hc; cbn; by rewrite lookup_insert_eq).
  assert (Hj' : testjobs (committed w1) !! i
                = Some (claim_job h (utcnow w) i j))
    by (rewrite Hc; cbn; by rewrite lookup_insert_eq).
  assert (Hrun := jobCompleted_impl_run false h e (prepare w1)
                    (claim_device i d) i (claim_job h (utcnow w) i j)).
  rewrite pending_prepare, Hp in Hrun. specialize (Hrun Hd' eq_refl Hj').
  exists i, j, (finish (after_complete false h (claim_device i d) i
                          (claim_job h (utcnow w) i j) e (prepare w1))),
    (complete_device (claim_device i d)),
    (complete_job e (utcnow w) (claim_job h (utcnow w) i j)).
  split; [done|]. split.
  { unfold jobCompleted. by rewrite deferForDB_run, Hrun. }
  cbn [finish committed set_scopes set_pending after_complete set_committed].
  rewrite utcnow_prepare, Hnow. unfold complete_tables.
  cbn [devices testjobs with_testjob with_device].
  rewrite !lookup_insert_eq. repeat split; try done.
  intros h2 d' Hin. apply elem_of_jobs_for_device in Hin as [_ Hf].
    unfold filter_for_device in Hf. apply andb_true_iff in Hf as [_ Hf].
    apply bool_decide_eq_true in Hf. cbn in Hf. by destruct (decide (e = 0)).
Qed.

Lemma claim_then_complete_witness :
  let w1 := (getJobForBoard false sample_loads 1 "panda01"
               (sample_world tables_queue)).2 in
  ∃ i j w2 d2 j2,
    testjobs tables_queue !! i = Some j ∧
    jobCompleted false "panda01" 3 w1 = (Return tt, w2) ∧
    devices (committed w2) !! "panda01" = Some d2 ∧
    Device.status d2 = Device.IDLE ∧ Device.current_job d2 = None ∧
    testjobs (committed w2) !! i = Some j2 ∧
    TestJob.status j2 = TestJob.INCOMPLETE ∧
    TestJob.actual_device j2 = Some "panda01" ∧
    TestJob.start_time j2 = Some 1000 ∧
    TestJob.end_time j2 = Some 1000 ∧
    (∀ h2 d', ¬ (i, j2) ∈ jobs_for_device h2 d' (committed w2)).
Proof.
  cbn zeta.
  apply (claim_then_complete sample_loads 1 "panda01" 3
           (sample_world tables_queue)
           (JObj (<["target" := JStr "panda01"]> ∅))); [reflexivity|].
  vm_compute. reflexivity.
Defined.

(** ** The constraint on current_job, operation by operation *)

Lemma unique_current_job_detach ds h d :
  unique_current_job ds → Device.current_job d = None →
  unique_current_job (<[h := d]> ds).
Proof.
  intros Hu Hc h1 h2 d1 d2 i H1 H2 Hc1 Hc2.
  destruct (decide (h1 = h)) as [->|Hn1].
  { rewrite lookup_insert_eq in H1. injection H1 as <-. congruence. }
  destruct (decide (h2 = h)) as [->|Hn2].
  { rewrite lookup_insert_eq in H2. injection H2 as <-. congruence. }
  rewrite lookup_insert_ne in H1, H2 by done. by eapply Hu.
Qed.

Lemma unique_current_job_claim ds h d i :
  unique_current_job ds →
  current_job_taken ds h (claim_device i d) = false →
  unique_current_job (<[h := claim_device i d]> ds).
Proof.
  intros Hu Ht. apply (unique_current_job_insert ds h (claim_device i d) i Hu eq_refl).
  intros h' d' Hne Hl Hc.
  enough (current_job_taken ds h (claim_device i d) = true) by congruence.
  apply current_job_taken_true. by exists i, h', d'.
Qed.

Section Constraint.
Variable managed : bool.
Variable json_loads : string → option json.

Lemma getJobForBoard_impl_unique fuel h w :
  pending w = committed w →
  unique_current_job (devices (committed w)) →
  unique_current_job
    (devices (committed (getJobForBoard_impl managed json_loads fuel h w).2)).
Proof.
  revert w. induction fuel as [|fuel IH]; intros w Hr Hu; [done|].
  rewrite getJobForBoard_impl_unfold, Hr.
  destruct (devices (committed w) !! h) as [d|]; [|done].
  destruct (decide _); [done|].
  destruct (jobs_for_device h d (committed w)) as [|[i j] rest]; [done|].
  destruct (current_job_taken _ _ _) eqn:Ht; [by apply IH|].
  assert (Hu' : unique_current_job
                  (devices (claim_tables h d i j (utcnow w) (committed w))))
    by by apply unique_current_job_claim.
  cbn zeta.
  destruct (json_loads (TestJob.definition j)) as [[]|]; cbn; rewrite ?Hr;
    try done; by destruct managed.
Qed.

(** X15.  If no two devices share a [current_job] before, none do after any
    of the six operations, whatever the operation returns or raises. *)
Theorem operations_keep_current_job_unique fuel h exit_code key value w :
  pending w = committed w →
  unique_current_job (devices (committed w)) →
  let kept {A} (r : outcome A * World) :=
    unique_current_job (devices (committed r.2)) in
  kept (getBoardList w) ∧
  kept (getJobForBoard managed json_loads fuel h w) ∧
  kept (getLogFileForJobOnBoard h w) ∧
  kept (jobCompleted managed h exit_code w) ∧
  kept (jobOobData managed h key value w) ∧
  kept (jobCheckForCancellation h w).
Proof.
  intros Hr Hu. cbn zeta.
  pose proof (prepare_at_rest w Hr) as Hr'.
  assert (Hu' : unique_current_job (devices (committed (prepare w))))
    by by rewrite committed_prepare.
  assert (Hp : pending (prepare w) = committed (prepare w)) by done.
  unfold getBoardList, getJobForBoard, getLogFileForJobOnBoard, jobCompleted,
    jobOobData, jobCheckForCancellation.
  assert (Hwrap : ∀ A (func : Py A),
            unique_current_job (devices (committed (func (prepare w)).2)) →
            unique_current_job (devices (committed (deferForDB func w).2))).
  { intros A func H. rewrite deferForDB_run.
    destruct (func (prepare w)) as [[a|e|] w1]; cbn in *; try done.
    destruct (is_store_error e && forces_reconnection (str e)); cbn;
      by rewrite ?committed_discard. }
  repeat split; apply Hwrap.
  - done.
  - by apply getJobForBoard_impl_unique.
  - rewrite getLogFileForJobOnBoard_impl_cases.
    destruct (devices _ !! h) as [d|]; [|done].
    destruct (Device.current_job d) as [i|]; [|done].
    destruct (testjobs _ !! i) as [j|]; [|done].
    destruct (TestJob.log_file j) as [n|]; [|done].
    by destruct (storage _ !! n).
  - rewrite jobCompleted_impl_cases.
    destruct (devices _ !! h) as [d|]; [|done]. cbn zeta.
    destruct (Device.current_job d) as [i|].
    + destruct (testjobs _ !! i) as [j|].
      * unfold after_complete. cbn. destruct managed; [done|].
        cbn. rewrite Hp. by apply unique_current_job_detach.
      * cbn. destruct (decide _); [|destruct (decide _)]; done.
    + cbn. destruct (decide _); [|destruct (decide _)]; done.
  - rewrite jobOobData_impl_cases. cbn zeta. destruct (decide _); [|done].
    destruct (devices _ !! h) as [d|]; [|done].
    destruct (Device.current_job d) as [i|]; [|done].
    destruct (testjobs _ !! i) as [j|]; [|done].
    unfold after_oob. cbn. by rewrite Hp.
  - rewrite jobCheckForCancellation_impl_cases.
    destruct (devices _ !! h) as [d|]; [|done].
    destruct (Device.current_job d) as [i|]; [|done].
    by destruct (testjobs _ !! i).
Qed.
End Constraint.

Lemma unique_current_job_tables_queue :
  unique_current_job (devices tables_queue).
Proof.
  intros h1 h2 d1 d2 i H1 H2 Hc1 Hc2. cbn in H1.
  apply lookup_singleton_Some in H1 as [<- <-]. done.
Qed.

Lemma operations_keep_current_job_unique_witness :
  let w := sample_world tables_queue in
  let kept {A} (r : outcome A * World) :=
    unique_current_job (devices (committed r.2)) in
  kept (getBoardList w) ∧
  kept (getJobForBoard false sample_loads 2 "panda01" w) ∧
  kept (getLogFileForJobOnBoard "panda01" w) ∧
  kept (jobCompleted false "panda01" 0 w) ∧
  kept (jobOobData false "panda01" "dashboard-put-result" "x" w) ∧
  kept (jobCheckForCancellation "panda01" w).
Proof.
  exact (operations_keep_current_job_unique false sample_loads 2 "panda01" 0
           "dashboard-put-result" "x" (sample_world tables_queue) eq_refl
           unique_current_job_tables_queue).
Defined.

(** ** The queryset as a whole *)

Lemma insert_sorted_Permutation x l : insert_sorted x l ≡ₚ x :: l.
Proof.
  induction l as [|y l IH]; cbn; [done|].
  destruct (comes_before x.2 y.2); [done|]. rewrite IH. apply Permutation_swap.
Qed.

Lemma order_by_Permutation l : order_by l ≡ₚ l.
Proof.
  induction l as [|y l IH]; cbn; [done|]. fold (order_by l).
  by rewrite insert_sorted_Permutation, IH.
Qed.

Lemma insert_sorted_sorted x l :
  StronglySorted (λ a b, comes_before a.2 b.2 = true) l →
  StronglySorted (λ a b, comes_before a.2 b.2 = true) (insert_sorted x l).
Proof.
  induction 1 as [|y l Hs IH Hy]; cbn.
  - repeat constructor.
  - destruct (comes_before x.2 y.2) eqn:Hxy.
    + constructor; [by constructor|]. constructor; [done|].
      eapply Forall_impl; [exact Hy|]. intros z Hz. cbn in Hz.
      by eapply comes_before_trans.
    + constructor; [done|]. apply Forall_forall. intros z Hz.
      apply elem_of_insert_sorted in Hz as [->|Hz].
      * by apply comes_before_total.
      * by apply (proj1 (Forall_forall _ _) Hy).
Qed.

(** X17.  The queryset holds exactly the SUBMITTED jobs that request the
    device or its type, each once, and every entry precedes the later ones:
    a job with [requested_device] null is never before one with it set, and
    within a tier [submit_time] does not decrease. *)
Theorem jobs_for_device_lists_candidates_in_order h d t :
  let l := jobs_for_device h d t in
  (∀ i j, (i, j) ∈ l ↔ candidate h d t i j) ∧
  NoDup l.*1 ∧
  (∀ a b x y, l !! a = Some x → l !! b = Some y → (a < b)%nat →
     (TestJob.requested_device x.2 = None →
      TestJob.requested_device y.2 = None) ∧
     ((TestJob.requested_device x.2 = None ↔
       TestJob.requested_device y.2 = None) →
      TestJob.submit_time x.2 ≤ TestJob.submit_time y.2)).
Proof.
  cbn zeta. split; [|split].
  - intros i j. symmetry. apply candidate_iff.
  - unfold jobs_for_device. rewrite order_by_Permutation.
    eapply NoDup_fmap_fst.
    + intros i j1 j2 H1 H2.
      apply list_elem_of_filter in H1 as [_ H1], H2 as [_ H2].
      apply elem_of_map_to_list in H1, H2. congruence.
    + apply NoDup_filter, NoDup_map_to_list.
  - intros a b x y Ha Hb Hab. apply comes_before_spec.
    assert (Hs : StronglySorted (λ a b, comes_before a.2 b.2 = true)
                   (jobs_for_device h d t)).
    { unfold jobs_for_device, order_by.
      induction (filter _ _) as [|z l IH]; cbn; [constructor|].
      by apply insert_sorted_sorted. }
    revert a b Ha Hb Hab.
    induction Hs as [|z l Hs IH Hz]; intros a b Ha Hb Hab; [done|].
    destruct a as [|a], b as [|b]; try lia; cbn in Ha, Hb.
    + injection Ha as <-.
      apply (proj1 (Forall_forall _ _) Hz). by eapply list_elem_of_lookup_2.
    + apply (IH a b); [done|done|lia].
Qed.

(** ** urls.py: which paths reach which view *)

Lemma append_String a s t : String a s +:+ t = String a (s +:+ t).
Proof. reflexivity. Qed.

Lemma append_empty t : "" +:+ t = t.
Proof. reflexivity. Qed.

Ltac norm_append := rewrite ?append_String, ?append_empty.

Lemma strip_prefix_app p s : strip_prefix p (p +:+ s) = Some s.
Proof.
  induction p as [|a p IH]; norm_append; cbn [strip_prefix]; [done|].
  by rewrite Ascii.eqb_refl.
Qed.

Lemma span_length_app class s t :
  all_in class s = true →
  span_length class (s +:+ t) = (String.length s + span_length class t)%nat.
Proof.
  induction s as [|a s IH]; norm_append; cbn; [done|].
  intros H. apply andb_true_iff in H as [-> H]. by rewrite IH.
Qed.

Lemma string_drop_app s t : string_drop (String.length s) (s +:+ t) = t.
Proof. induction s as [|a s IH]; norm_append; cbn; [by destruct t|done]. Qed.

Lemma string_take_app s t : string_take (String.length s) (s +:+ t) = s.
Proof.
  induction s as [|a s IH]; norm_append; cbn; [by destruct t|by rewrite IH].
Qed.

Lemma longest_first_top {A} k (f : nat → option A) a :
  f (S k) = Some a → longest_first (S k) f = Some a.
Proof. intros H. cbn. by rewrite H. Qed.

Lemma longest_first_Some {A} k (f : nat → option A) a :
  longest_first k f = Some a → ∃ k', (1 ≤ k' ≤ k)%nat ∧ f k' = Some a.
Proof.
  induction k as [|k IH]; cbn; [done|].
  destruct (f (S k)) eqn:Hf.
  - intros [= <-]. exists (S k). split; [lia|done].
  - intros H. apply IH in H as (k' & Hk & H). exists k'. split; [lia|done].
Qed.

Lemma longest_first_None {A} k (f : nat → option A) :
  (∀ k', (1 ≤ k' ≤ k)%nat → f k' = None) → longest_first k f = None.
Proof.
  induction k as [|k IH]; intros H; cbn; [done|].
  rewrite H by lia. apply IH. intros k' Hk. apply H. lia.
Qed.

Lemma match_end s groups :
  match_items [] s = Some groups ↔ groups = [] ∧ (s = "" ∨ s = newline).
Proof.
  cbn. destruct (decide _) as [H|H]; split; try done.
  - by intros [= <-].
  - by intros [-> _].
  - by intros [_ ?].
Qed.

Lemma match_end_long s : (2 ≤ String.length s)%nat → match_items [] s = None.
Proof.
  intros Hl. cbn. destruct (decide _) as [[->| ->]|]; [cbn in Hl; lia..|done].
Qed.

Lemma string_drop_suffix class k s t :
  all_in class s = true → (k ≤ String.length s)%nat →
  ∃ sfx, string_drop k (s +:+ t) = sfx +:+ t ∧ all_in class sfx = true.
Proof.
  revert k. induction s as [|a s IH]; intros k Hs Hk.
  - cbn in Hk. assert (k = 0)%nat as -> by lia. exists "". by destruct t.
  - destruct k as [|k]; [by exists (String a s)|]. norm_append. cbn.
    cbn in Hs, Hk. apply andb_true_iff in Hs as [_ Hs]. apply IH; [done|lia].
Qed.

(** A group followed by text the class does not continue into takes the
    whole run. *)
Lemma match_group_exact name class items pk rest groups :
  all_in class pk = true → pk ≠ "" → span_length class rest = 0%nat →
  match_items items rest = Some groups →
  match_items (Group name class :: items) (pk +:+ rest)
  = Some ((name, pk) :: groups).
Proof.
  intros Hpk Hne Hrest Hm. cbn [match_items].
  rewrite span_length_app, Hrest, Nat.add_0_r by done.
  destruct pk as [|a pk]; [done|]. cbn [String.length].
  apply longest_first_top.
  change (S (String.length pk)) with (String.length (String a pk)).
  by rewrite string_drop_app, Hm, string_take_app.
Qed.

Lemma match_group_fails name class items pk rest :
  all_in class pk = true → span_length class rest = 0%nat →
  (∀ sfx, all_in class sfx = true → match_items items (sfx +:+ rest) = None) →
  match_items (Group name class :: items) (pk +:+ rest) = None.
Proof.
  intros Hpk Hrest Hfail. cbn [match_items].
  rewrite span_length_app, Hrest, Nat.add_0_r by done.
  apply longest_first_None. intros k Hk.
  destruct (string_drop_suffix class k pk rest Hpk) as (sfx & -> & Hsfx);
    [lia|].
  by rewrite Hfail.
Qed.

Lemma length_app s t :
  String.length (s +:+ t) = (String.length s + String.length t)%nat.
Proof. induction s as [|a s IH]; norm_append; cbn; [done|by rewrite IH]. Qed.

Lemma not_end s : (2 ≤ String.length s)%nat → ¬ (s = "" ∨ s = newline).
Proof. intros Hl [->| ->]; cbn in Hl; lia. Qed.

Lemma digit_not_slash a s p :
  digit a = true → strip_prefix (String (Ascii.ascii_of_nat 47) p) (String a s)
                   = None.
Proof.
  intros Hd. cbn [strip_prefix].
  destruct (Ascii.eqb_spec (Ascii.ascii_of_nat 47) a) as [<-|];
    [|done]. by vm_compute in Hd.
Qed.

Lemma slug_not_slash a s p :
  slug a = true → strip_prefix (String (Ascii.ascii_of_nat 47) p) (String a s)
                  = None.
Proof.
  intros Hd. cbn [strip_prefix].
  destruct (Ascii.eqb_spec (Ascii.ascii_of_nat 47) a) as [<-|];
    [|done]. by vm_compute in Hd.
Qed.

Lemma resolve_job rest :
  resolve ("job/" +:+ rest) =
  match match_items [Group "pk" digit] rest with
  | Some kw => Some (view "job", kw)
  | None =>
      match match_items [Group "pk" digit; Literal "/output"] rest with
      | Some kw => Some (view "job_output", kw)
      | None =>
          match match_items [Group "pk" digit; Literal "/cancel"] rest with
          | Some kw => Some (view "job_cancel", kw)
          | None => None
          end
      end
  end.
Proof.
  unfold resolve, urlpatterns. cbn [resolve_in].
  rewrite match_end_long by (rewrite length_app; cbn; lia).
  change (match_items [Literal "alljobs"] ("job/" +:+ rest)) with
    (@None (list (string * string))).
  change (match_items [Literal "device/"; Group "pk" slug]
            ("job/" +:+ rest)) with (@None (list (string * string))).
  change (match_items [Literal "device/"; Group "pk" slug;
                       Literal "/maintenance"] ("job/" +:+ rest))
    with (@None (list (string * string))).
  cbn [match_items]. by rewrite strip_prefix_app.
Qed.

(** X18.  For a non-empty string of digits [pk], the paths job/pk,
    job/pk/output and job/pk/cancel, with or without a final newline,
    resolve to the views job, job_output and job_cancel with [pk] as the
    only keyword argument. *)
Theorem resolve_job_urls pk tail :
  pk ≠ "" → all_in digit pk = true → tail = "" ∨ tail = newline →
  resolve ("job/" +:+ pk +:+ tail) = Some (view "job", [("pk", pk)]) ∧
  resolve ("job/" +:+ pk +:+ "/output" +:+ tail)
  = Some (view "job_output", [("pk", pk)]) ∧
  resolve ("job/" +:+ pk +:+ "/cancel" +:+ tail)
  = Some (view "job_cancel", [("pk", pk)]).
Proof.
  intros Hne Hpk Htail.
  assert (Hspan : span_length digit tail = 0%nat)
    by by destruct Htail as [->| ->].
  assert (Hend : match_items [] tail = Some []) by by apply match_end.
  assert (Hjob : ∀ post, (2 ≤ String.length post)%nat →
            span_length digit (post +:+ tail) = 0%nat →
            match_items [Group "pk" digit] (pk +:+ post +:+ tail) = None).
  { intros post Hl Hs. apply match_group_fails; [done|done|].
    intros sfx _. apply match_end_long. rewrite !length_app. lia. }
  rewrite !resolve_job. repeat split.
  - by rewrite (match_group_exact "pk" digit [] pk tail []).
  - rewrite Hjob by (cbn; lia || done).
    rewrite (match_group_exact "pk" digit [Literal "/output"] pk
               ("/output" +:+ tail) []); [done..|].
    cbn [match_items]. by rewrite strip_prefix_app.
  - rewrite Hjob by (cbn; lia || done).
    rewrite (match_group_fails "pk" digit [Literal "/output"] pk
               ("/cancel" +:+ tail)); [|done|done|].
    + rewrite (match_group_exact "pk" digit [Literal "/cancel"] pk
                 ("/cancel" +:+ tail) []); [done..|].
      cbn [match_items]. by rewrite strip_prefix_app.
    + intros [|a sfx] Hs; [done|]. cbn in Hs.
      apply andb_true_iff in Hs as [Ha _]. cbn [match_items].
      rewrite append_String.
      change "/output" with (String (Ascii.ascii_of_nat 47) "output").
      by rewrite digit_not_slash.
Qed.

Lemma resolve_device rest :
  resolve ("device/" +:+ rest) =
  match match_items [Group "pk" slug] rest with
  | Some kw => Some (view "device", kw)
  | None =>
      match match_items [Group "pk" slug; Literal "/maintenance"] rest with
      | Some kw => Some (view "device_maintenance_mode", kw)
      | None => None
      end
  end.
Proof.
  unfold resolve, urlpatterns. cbn [resolve_in].
  rewrite match_end_long by (rewrite length_app; cbn; lia).
  change (match_items [Literal "alljobs"] ("device/" +:+ rest)) with
    (@None (list (string * string))).
  change (match_items [Literal "job/"; Group "pk" digit]
            ("device/" +:+ rest)) with (@None (list (string * string))).
  change (match_items [Literal "job/"; Group "pk" digit; Literal "/output"]
            ("device/" +:+ rest)) with (@None (list (string * string))).
  change (match_items [Literal "job/"; Group "pk" digit; Literal "/cancel"]
            ("device/" +:+ rest)) with (@None (list (string * string))).
  cbn [match_items]. rewrite strip_prefix_app.
  destruct (longest_first _ _); [done|]. by destruct (longest_first _ _).
Qed.

(** X19.  For a non-empty [pk] of letters, digits, [-] and [_], the paths
    device/pk and device/pk/maintenance, with or without a final newline,
    resolve to the views device and device_maintenance_mode with [pk] as
    the only keyword argument. *)
Theorem resolve_device_urls pk tail :
  pk ≠ "" → all_in slug pk = true → tail = "" ∨ tail = newline →
  resolve ("device/" +:+ pk +:+ tail) = Some (view "device", [("pk", pk)]) ∧
  resolve ("device/" +:+ pk +:+ "/maintenance" +:+ tail)
  = Some (view "device_maintenance_mode", [("pk", pk)]).
Proof.
  intros Hne Hpk Htail.
  assert (Hspan : span_length slug tail = 0%nat)
    by by destruct Htail as [->| ->].
  assert (Hend : match_items [] tail = Some []) by by apply match_end.
  rewrite !resolve_device. split.
  - by rewrite (match_group_exact "pk" slug [] pk tail []).
  - rewrite (match_group_fails "pk" slug [] pk ("/maintenance" +:+ tail));
      [|done|done|].
    + rewrite (match_group_exact "pk" slug [Literal "/maintenance"] pk
                 ("/maintenance" +:+ tail) []); [done..|].
      cbn [match_items]. by rewrite strip_prefix_app.
    + intros sfx _. apply match_end_long. rewrite !length_app. cbn. lia.
Qed.

Lemma resolve_device_urls_witness :
  resolve ("device/" +:+ "panda-01_a" +:+ "")
  = Some (view "device", [("pk", "panda-01_a")]) ∧
  resolve ("device/" +:+ "panda-01_a" +:+ "/maintenance" +:+ "")
  = Some (view "device_maintenance_mode", [("pk", "panda-01_a")]).
Proof.
  apply (resolve_device_urls "panda-01_a" ""); [done|reflexivity|by left].
Defined.

Lemma resolve_job_urls_witness :
  resolve ("job/" +:+ "2041" +:+ newline)
  = Some (view "job", [("pk", "2041")]) ∧
  resolve ("job/" +:+ "2041" +:+ "/output" +:+ newline)
  = Some (view "job_output", [("pk", "2041")]) ∧
  resolve ("job/" +:+ "2041" +:+ "/cancel" +:+ newline)
  = Some (view "job_cancel", [("pk", "2041")]).
Proof.
  apply (resolve_job_urls "2041" newline); [done|reflexivity|by right].
Defined.

(** ** urls.py: what a view is called with *)

Lemma strip_prefix_inv p s s' : strip_prefix p s = Some s' → s = p +:+ s'.
Proof.
  revert s. induction p as [|a p IH]; intros s; cbn [strip_prefix].
  - by intros [= ->].
  - destruct s as [|b s]; [done|].
    destruct (Ascii.eqb_spec a b) as [->|]; [|done].
    intros H. apply IH in H. by rewrite H.
Qed.

Lemma string_take_span class k s :
  (1 ≤ k ≤ span_length class s)%nat →
  string_take k s ≠ "" ∧ all_in class (string_take k s) = true.
Proof.
  revert s. induction k as [|k IH]; intros s Hk; [lia|].
  destruct s as [|a s]; cbn in Hk; [lia|].
  destruct (class a) eqn:Ha; [|lia]. cbn. rewrite Ha. split; [done|].
  destruct k as [|k]; [by destruct s|]. apply IH. lia.
Qed.

Lemma match_group_inv name class items s groups :
  match_items (Group name class :: items) s = Some groups →
  ∃ k groups',
    (1 ≤ k ≤ span_length class s)%nat ∧
    match_items items (string_drop k s) = Some groups' ∧
    groups = (name, string_take k s) :: groups'.
Proof.
  cbn [match_items]. intros H.
  apply longest_first_Some in H as (k & Hk & H).
  destruct (match_items items (string_drop k s)) as [g|] eqn:Hm; [|done].
  injection H as <-. by exists k, g.
Qed.

Lemma match_literal_inv p items s groups :
  match_items (Literal p :: items) s = Some groups →
  ∃ s', s = p +:+ s' ∧ match_items items s' = Some groups.
Proof.
  cbn [match_items]. destruct (strip_prefix p s) as [s'|] eqn:Hs; [|done].
  intros H. exists s'. split; [by apply strip_prefix_inv|done].
Qed.

(** The keyword arguments of a pattern with one group. *)
Lemma match_one_group pre name class post s groups :
  match_items (Literal pre :: Group name class :: post) s = Some groups →
  (∀ s' g, match_items post s' = Some g → g = []) →
  ∃ pk, groups = [(name, pk)] ∧ pk ≠ "" ∧ all_in class pk = true.
Proof.
  intros H Hpost.
  apply match_literal_inv in H as (s' & -> & H).
  apply match_group_inv in H as (k & g & Hk & Hm & ->).
  apply Hpost in Hm as ->.
  exists (string_take k s'). split; [done|]. by apply string_take_span.
Qed.

Lemma match_literal_end p s g : match_items [Literal p] s = Some g → g = [].
Proof.
  intros H. apply match_literal_inv in H as (s' & _ & H).
  by apply match_end in H as [-> _].
Qed.

Lemma match_end_groups s g : match_items [] s = Some g → g = [].
Proof. intros H. by apply match_end in H as [-> _]. Qed.

(** X20.  Whatever path resolves, the view is one of the seven of the module;
    index and alljobs get no argument and only for their own path; a device
    view gets one [pk], non-empty, of letters, digits, [-] and [_]; a job
    view gets one [pk], a non-empty string of digits. *)
Theorem resolve_sound path v kwargs :
  resolve path = Some (v, kwargs) →
  (v = view "index" ∧ kwargs = [] ∧ (path = "" ∨ path = newline)) ∨
  (v = view "alljobs" ∧ kwargs = [] ∧
   (path = "alljobs" ∨ path = "alljobs" +:+ newline)) ∨
  (∃ pk, (v = view "device" ∨ v = view "device_maintenance_mode") ∧
         kwargs = [("pk", pk)] ∧ pk ≠ "" ∧ all_in slug pk = true) ∨
  (∃ pk, (v = view "job" ∨ v = view "job_output" ∨ v = view "job_cancel") ∧
         kwargs = [("pk", pk)] ∧ pk ≠ "" ∧ all_in digit pk = true).
Proof.
  unfold resolve, urlpatterns. cbn [resolve_in].
  destruct (match_items [] path) as [g|] eqn:H0.
  { intros [= <- <-]. apply match_end in H0 as [-> H0]. by left. }
  destruct (match_items [Literal "alljobs"] path) as [g|] eqn:H1.
  { intros [= <- <-]. right; left.
    apply match_literal_inv in H1 as (s' & -> & H1).
    apply match_end in H1 as [-> [->| ->]]; by auto. }
  destruct (match_items [Literal "device/"; Group "pk" slug] path)
    as [g|] eqn:H2.
  { intros [= <- <-]. right; right; left.
    apply match_one_group in H2 as (pk & -> & Hne & Hpk);
      [|apply match_end_groups]. exists pk. by auto. }
  destruct (match_items [Literal "device/"; Group "pk" slug;
                         Literal "/maintenance"] path) as [g|] eqn:H3.
  { intros [= <- <-]. right; right; left.
    apply match_one_group in H3 as (pk & -> & Hne & Hpk);
      [|apply match_literal_end]. exists pk. by auto. }
  destruct (match_items [Literal "job/"; Group "pk" digit] path)
    as [g|] eqn:H4.
  { intros [= <- <-]. right; right; right.
    apply match_one_group in H4 as (pk & -> & Hne & Hpk);
      [|apply match_end_groups]. exists pk. by auto. }
  destruct (match_items [Literal "job/"; Group "pk" digit;
                         Literal "/output"] path) as [g|] eqn:H5.
  { intros [= <- <-]. right; right; right.
    apply match_one_group in H5 as (pk & -> & Hne & Hpk);
      [|apply match_literal_end]. exists pk. by auto. }
  destruct (match_items [Literal "job/"; Group "pk" digit;
                         Literal "/cancel"] path) as [g|] eqn:H6; [|done].
  intros [= <- <-]. right; right; right.
  apply match_one_group in H6 as (pk & -> & Hne & Hpk);
    [|apply match_literal_end]. exists pk. by auto 6.
Qed.

Lemma resolve_sound_witness :
  (view "device" = view "index" ∧ [("pk", "maintenance")] = [] ∧
   ("device/maintenance" = "" ∨ "device/maintenance" = newline)) ∨
  (view "device" = view "alljobs" ∧ [("pk", "maintenance")] = [] ∧
   ("device/maintenance" = "alljobs" ∨
    "device/maintenance" = "alljobs" +:+ newline)) ∨
  (∃ pk, (view "device" = view "device" ∨
          view "device" = view "device_maintenance_mode") ∧
         [("pk", "maintenance")] = [("pk", pk)] ∧ pk ≠ "" ∧
         all_in slug pk = true) ∨
  (∃ pk, (view "device" = view "job" ∨ view "device" = view "job_output" ∨
          view "device" = view "job_cancel") ∧
         [("pk", "maintenance")] = [("pk", pk)] ∧ pk ≠ "" ∧
         all_in digit pk = true).
Proof.
  exact (resolve_sound "device/maintenance" (view "device")
           [("pk", "maintenance")] eq_refl).
Defined.
